(** * Dataset header conversion and benchmark summary

    A shallow embedding of the two scripts of the repository:

    - [convert_dataset.py]: [convert_bin_to_fbin] and the conversion loop
      of [main] (module [ConvertDataset]);
    - [analyze_cagra_results.py]: the sorting, table and CSV part of
      [main] (module [AnalyzeCagraResults]), and [parse_benchmark_result]
      with the loop that collects its results (module
      [ParseBenchmarkResult]).

    Python integers are unbounded, so they are [Z].  File contents are
    [list byte].  The file system is a finite map from paths to the
    contents of the regular files; standard output is a list of printed
    lines, one constructor per [print] of the source.  Exceptions are an
    inductive type and every effectful operation is a function of the
    world returning a result and the new world. *)

From Stdlib Require Import ZArith List String Ascii Lia Sorted Permutation.
From Stdlib Require Import DecimalString.
From Stdlib.Strings Require Import Byte.
From stdpp Require Import gmap strings.
Import ListNotations.

Local Open Scope Z_scope.

(** ** Bytes and the [struct] codes ['i'] and ['I'] *)

Module Struct.

Definition byte_to_Z (b : byte) : Z := Z.of_N (Byte.to_N b).

Definition Z_to_byte (z : Z) : byte :=
  match Byte.of_N (Z.to_N (z mod 256)) with
  | Some b => b
  | None => x00
  end.

(** The four bytes of a 32-bit word, least significant first.  The
    scripts use the native byte order, which is little endian on the
    machines the datasets are produced on. *)
Definition le32 (v : Z) : list byte :=
  [ Z_to_byte v;
    Z_to_byte (Z.shiftr v 8);
    Z_to_byte (Z.shiftr v 16);
    Z_to_byte (Z.shiftr v 24) ].

Fixpoint le_decode (bs : list byte) : Z :=
  match bs with
  | [] => 0
  | b :: bs' => byte_to_Z b + 256 * le_decode bs'
  end.

Inductive error : Type :=
| unpack_requires_4_bytes
| argument_out_of_range.

(** [struct.unpack('i', b)[0]]: a buffer of exactly four bytes, read as
    a signed 32-bit integer. *)
Definition unpack_i (b : list byte) : error + Z :=
  if (length b =? 4)%nat then
    let u := le_decode b in
    inr (if 2 ^ 31 <=? u then u - 2 ^ 32 else u)
  else inl unpack_requires_4_bytes.

(** [struct.pack('I', v)]: four bytes of an unsigned 32-bit integer;
    a value outside [0, 2^32 - 1] raises [struct.error]. *)
Definition pack_I (v : Z) : error + list byte :=
  if (0 <=? v) && (v <=? 2 ^ 32 - 1) then inr (le32 v)
  else inl argument_out_of_range.

End Struct.

(** ** [convert_dataset.py] *)

Module ConvertDataset.

Import Struct.

(** *** Exceptions, printed lines and the world *)

Inductive exn : Type :=
| FileNotFoundError (path : string)
| struct_error (e : Struct.error)
| OverflowError
| MemoryError
| ValueError_read_length
| ValueError_data_size_mismatch (expected got : Z)
| SystemExit (code : Z).

(** [except Exception] catches everything above except [SystemExit],
    which derives from [BaseException] only. *)
Definition is_Exception (e : exn) : bool :=
  match e with
  | SystemExit _ => false
  | _ => true
  end.

(** One constructor per [print] of the source that the conversion and
    its loop reach; the arguments are the values interpolated into the
    printed text. *)
Inductive line : Type :=
| Converting (input_file output_file : string)
| Input_format (dim count : Z)
| Output_format (nrows dim : Z)
| Conversion_successful
| Blank
| Warning_not_found_skipping (input_name : string)
| Error_converting (input_name : string) (e : exn).

(** [files] holds the content of every regular file, keyed by its path;
    directories, permissions and device errors are not modelled. *)
Record world : Type := World {
  files : gmap string (list byte);
  stdout : list line
}.

Inductive result (A : Type) : Type :=
| Return (a : A)
| Raise (e : exn).
Arguments Return {A} a.
Arguments Raise {A} e.

Definition M (A : Type) : Type := world -> result A * world.

#[export] Instance M_ret : MRet M := fun A a w => (Return a, w).

#[export] Instance M_bind : MBind M := fun A B k m w =>
  match m w with
  | (Return a, w') => k a w'
  | (Raise e, w') => (Raise e, w')
  end.

Definition raise {A : Type} (e : exn) : M A := fun w => (Raise e, w).

(** [try: body except Exception as e: handler e] *)
Definition try_except {A : Type} (body : M A) (handler : exn -> M A) : M A :=
  fun w =>
    match body w with
    | (Return a, w') => (Return a, w')
    | (Raise e, w') =>
        if is_Exception e then handler e w' else (Raise e, w')
    end.

Definition print (l : line) : M unit := fun w =>
  (Return tt, World (files w) (stdout w ++ [l])).

Definition sys_exit {A : Type} (code : Z) : M A := raise (SystemExit code).

(** *** Files *)

(** [open(path, 'rb')]: the handle is the list of bytes not yet read. *)
Definition open_rb (path : string) : M (list byte) := fun w =>
  match files w !! path with
  | Some content => (Return content, w)
  | None => (Raise (FileNotFoundError path), w)
  end.

(** The largest value of the size type of a 64-bit interpreter. *)
Definition PY_SSIZE_T_MAX : Z := 2 ^ 63 - 1.

(** What the machine adds to the semantics: [memory] is the size of the
    largest buffer that [read] can allocate. *)
Class Platform : Type := {
  memory : Z;
  memory_min : 4 <= memory
}.

Section WithPlatform.

Context {platform : Platform}.

(** The exception that [f.read(n)] raises before it reads, if any.  The
    length is first converted to the size type ([OverflowError] outside
    it), a length below -1 is refused ([ValueError]), and a buffer of [n]
    bytes is allocated ([MemoryError] when it is too large).  A buffer
    that the rest of the file fills is taken to fit the size type and
    the memory: the script holds the whole payload in memory, and a file
    too large for that is outside what is modelled. *)
Definition read_error (n : Z) (f : list byte) : option exn :=
  if n <? - PY_SSIZE_T_MAX - 1 then Some OverflowError
  else if n <? -1 then Some ValueError_read_length
  else if Z.of_nat (length f) <? n then
    if PY_SSIZE_T_MAX <? n then Some OverflowError
    else if memory <? n then Some MemoryError
    else None
  else None.

(** [f.read(n)] on a binary handle: at most [n] bytes for [0 <= n] and
    the rest of the file for [n = -1]; returns the bytes read and the
    advanced handle. *)
Definition f_read (n : Z) (f : list byte) : M (list byte * list byte) :=
  match read_error n f with
  | Some e => raise e
  | None =>
      if n =? -1 then mret (f, [])
      else mret (firstn (Z.to_nat n) f, skipn (Z.to_nat n) f)
  end.

End WithPlatform.

(** [open(path, 'wb')] creates the file or truncates it. *)
Definition open_wb (path : string) : M unit := fun w =>
  (Return tt, World (<[path := []]> (files w)) (stdout w)).

(** [f.write(b)] on the handle opened on [path] appends [b]. *)
Definition f_write (path : string) (b : list byte) : M unit := fun w =>
  (Return tt, World (alter (fun c => c ++ b) path (files w)) (stdout w)).

(** [Path.exists()] *)
Definition exists_ (path : string) : M bool := fun w =>
  (Return (bool_decide (is_Some (files w !! path))), w).

(** [dir / name], for a directory written without a trailing slash and
    without empty or [.] components, and a relative [name]: there the
    joined path is the two texts with one slash in between. *)
Definition path_join (dir name : string) : string :=
  (dir ++ "/" ++ name)%string.

Definition unpack (buffer : list byte) : M Z :=
  match unpack_i buffer with
  | inr v => mret v
  | inl e => raise (struct_error e)
  end.

Definition pack (v : Z) : M (list byte) :=
  match pack_I v with
  | inr b => mret b
  | inl e => raise (struct_error e)
  end.

(** *** [convert_bin_to_fbin] *)

Section Convert.

Context {platform : Platform}.

Definition convert_bin_to_fbin
    (input_file output_file : string) (data_type : string) : M unit :=
  print (Converting input_file output_file) ;;
  f ← open_rb input_file ;
  '(b, f) ← f_read 4 f ;
  first_meta ← unpack b ;
  '(b, f) ← f_read 4 f ;
  second_meta ← unpack b ;
  print (Input_format first_meta second_meta) ;;
  let dim := first_meta in
  let count := second_meta in
  let element_size := if String.eqb data_type "f" then 4 else 8 in
  let data_size := dim * count * element_size in
  '(data, f) ← f_read data_size f ;
  (if negb (Z.of_nat (length data) =? data_size)
   then raise (ValueError_data_size_mismatch data_size (Z.of_nat (length data)))
   else mret tt) ;;
  open_wb output_file ;;
  b ← pack count ; f_write output_file b ;;
  b ← pack dim ; f_write output_file b ;;
  f_write output_file data ;;
  print (Output_format count dim) ;;
  print Conversion_successful.

End Convert.

(** *** The header path of [convert_bin_to_fbin] on its own *)

(** The two header words as lines 27-28 read them from the start of the
    file: [dim] first, [count] second. *)
Definition decode_internal (content : list byte) : Struct.error + (Z * Z) :=
  match unpack_i (firstn 4 content) with
  | inl e => inl e
  | inr first_meta =>
      match unpack_i (firstn 4 (skipn 4 content)) with
      | inl e => inl e
      | inr second_meta => inr (first_meta, second_meta)
      end
  end.

(** The eight header bytes as lines 47-48 produce them: [count] first,
    [dim] second. *)
Definition encode_standard (dim count : Z) : Struct.error + list byte :=
  match pack_I count with
  | inl e => inl e
  | inr b1 =>
      match pack_I dim with
      | inl e => inl e
      | inr b2 => inr (b1 ++ b2)
      end
  end.

(** *** The conversion loop of [main] *)

Definition conversions : list (string * string * string) :=
  [ ("openai_500k_train_vectors.bin", "openai500k_base.fbin", "f");
    ("openai_500k_test_queries.bin", "openai500k_query.fbin", "f");
    ("openai_500k_ground_truth.bin", "openai500k_groundtruth.ibin", "q") ]%string.

Section Loop.

Context {platform : Platform}.

(** [for input_name, output_name, dtype in conversions: ...] *)
Fixpoint main_loop (input_dir output_dir : string)
    (conversions : list (string * string * string)) : M unit :=
  match conversions with
  | [] => mret tt
  | (input_name, output_name, dtype) :: rest =>
      let input_file := path_join input_dir input_name in
      let output_file := path_join output_dir output_name in
      found ← exists_ input_file ;
      if negb found then
        print (Warning_not_found_skipping input_name) ;;
        main_loop input_dir output_dir rest
      else
        try_except
          (convert_bin_to_fbin input_file output_file dtype ;;
           print Blank)
          (fun e =>
             print (Error_converting input_name e) ;;
             sys_exit 1) ;;
        main_loop input_dir output_dir rest
  end.

End Loop.

(** A machine on which a buffer of up to 16 GiB can be allocated; the
    examples are evaluated on it. *)
#[export] Instance sixteen_GiB : Platform :=
  {| memory := 2 ^ 34; memory_min := ltac:(lia) |}.

End ConvertDataset.

(** ** [analyze_cagra_results.py] *)

Module AnalyzeCagraResults.

Section Summary.

(** The floats of the loaded JSON and the literal [0.0]. *)
Variable float : Type.
Variable zero : float.

(** A JSON number as [json.load] returns it: an [int] or a [float]. *)
Inductive number : Type :=
| Int (n : Z)
| Float (x : float).

(** The format [f"{x:.Nf}"] of a number and the text [f"{x}"] of a
    float.  The decimal rendering of floats is left open: the summary
    only copies these texts into a column. *)
Variable format_fixed : nat -> number -> string.
Variable repr : float -> string.

(** The keys that [parse_benchmark_result] sets only when the benchmark
    has a ['counters'] object. *)
Record counters : Type := Counters {
  recall : number;
  qps : number;
  total_queries : number;
  latency : number;
  end_to_end : number;
  itopk : number;
  search_width : number;
  refine_ratio : number
}.

(** The dictionary returned by [parse_benchmark_result], for a benchmark
    whose values have the types of the benchmark output: the name and
    the time unit are strings, [threads] is an integer and every other
    value is a number. *)
Record result : Type := Result {
  name : string;
  threads : Z;
  iterations : number;
  real_time : number;
  cpu_time : number;
  time_unit : string;
  custom : option counters
}.

(** [r.get(key, default)] for the keys of the counters. *)
Definition get {A : Type} (key : counters -> A) (default : A) (r : result) : A :=
  match custom r with
  | Some c => key c
  | None => default
  end.

(** [r.get(key, 'N/A')] *)
Definition get_or_NA {A : Type} (key : counters -> A) (r : result) : option A :=
  match custom r with
  | Some c => Some (key c)
  | None => None
  end.

Inductive line : Type :=
| Error_no_valid_results
| Table_header
| Dashes
| Table_row (concurrency : Z) (qps recall latency : number)
    (total_queries : number)
| Blank
| Equals
| Search_parameters
| Param_k
| Param_itopk_size (v : option number)
| Param_search_width (v : option number)
| Param_refine_ratio (v : option number)
| Summary_saved_to (csv_file : string).

(** The outcome of the run from line 80 on: [sys.exit(1)] or a normal
    return, with the lines printed and the text written to the CSV file. *)
Inductive outcome : Type :=
| Exit (code : Z) (printed : list line)
| Done (printed : list line) (csv_file : string) (csv : string).

Definition newline : string := String (ascii_of_nat 10) EmptyString.

(** [f"{n}"] for an integer. *)
Definition str (n : Z) : string := NilZero.string_of_int (Z.to_int n).

(** [f"{v}"] for a number. *)
Definition str_number (v : number) : string :=
  match v with
  | Int n => str n
  | Float x => repr x
  end.

(** [results.sort(key=lambda x: x['threads'])]: ascending and stable.
    The result of a stable sort is determined by its input, so it is
    computed here by insertion, each record going in front of the first
    one whose key is not smaller. *)
Fixpoint insert (r : result) (sorted : list result) : list result :=
  match sorted with
  | [] => [r]
  | x :: rest =>
      if threads r <=? threads x then r :: x :: rest
      else x :: insert r rest
  end.

Definition sort (results : list result) : list result :=
  fold_right insert [] results.

(** The order in which the sort leaves the records: ascending keys. *)
Definition by_threads (a b : result) : Prop := threads a <= threads b.

(** Line 99 *)
Definition table_row (r : result) : line :=
  let concurrency := threads r in
  let qps := get qps (Float zero) r in
  let recall := get recall (Float zero) r in
  let latency := get latency (Float zero) r in
  let total_queries := get total_queries (Int 0) r in
  Table_row concurrency qps recall latency total_queries.

(** Lines 117-118 *)
Definition csv_row (r : result) : string :=
  (str (threads r) ++ "," ++ format_fixed 2 (get qps (Float zero) r) ++ ","
   ++ format_fixed 4 (get recall (Float zero) r) ++ ","
   ++ format_fixed 3 (get latency (Float zero) r) ++ ","
   ++ str_number (get total_queries (Int 0) r) ++ newline)%string.

Definition csv_header : string :=
  ("Concurrency,QPS,Recall,Latency_ms,Total_Queries" ++ newline)%string.

(** Lines 80-120 of [main], from the list [results] of the parsed
    records. *)
Definition summarize (results_dir : string) (results : list result) : outcome :=
  match results with
  | [] => Exit 1 [Error_no_valid_results]
  | _ :: _ =>
      let results := sort results in
      let table :=
        [Table_header; Dashes] ++ map table_row results
        ++ [Blank; Equals; Search_parameters] in
      let parameters :=
        match results with
        | [] => []
        | r :: _ =>
            [ Param_k;
              Param_itopk_size (get_or_NA itopk r);
              Param_search_width (get_or_NA search_width r);
              Param_refine_ratio (get_or_NA refine_ratio r) ]
        end in
      let csv_file := (results_dir ++ "/summary.csv")%string in
      let csv := (csv_header ++ String.concat "" (map csv_row results))%string in
      Done (table ++ parameters ++ [Blank; Summary_saved_to csv_file; Blank])
        csv_file csv
  end.

End Summary.

Arguments Int {float}.
Arguments Float {float}.
Arguments Counters {float}.
Arguments recall {float}.
Arguments qps {float}.
Arguments total_queries {float}.
Arguments latency {float}.
Arguments end_to_end {float}.
Arguments itopk {float}.
Arguments search_width {float}.
Arguments refine_ratio {float}.
Arguments Result {float}.
Arguments name {float}.
Arguments threads {float}.
Arguments iterations {float}.
Arguments real_time {float}.
Arguments cpu_time {float}.
Arguments time_unit {float}.
Arguments custom {float}.
Arguments get {float A}.
Arguments get_or_NA {float A}.
Arguments Error_no_valid_results {float}.
Arguments Table_header {float}.
Arguments Dashes {float}.
Arguments Table_row {float}.
Arguments Blank {float}.
Arguments Equals {float}.
Arguments Search_parameters {float}.
Arguments Param_k {float}.
Arguments Param_itopk_size {float}.
Arguments Param_search_width {float}.
Arguments Param_refine_ratio {float}.
Arguments Summary_saved_to {float}.
Arguments Exit {float}.
Arguments Done {float}.
Arguments str_number {float}.
Arguments insert {float}.
Arguments sort {float}.
Arguments by_threads {float}.
Arguments table_row {float}.
Arguments csv_row {float}.
Arguments summarize {float}.

End AnalyzeCagraResults.

(** ** [parse_benchmark_result] and the loop that collects its results *)

Module ParseBenchmarkResult.

(** The exceptions that the operations on a loaded JSON value raise. *)
Inductive exn : Type :=
| TypeError
| KeyError
| IndexError
| AttributeError.

#[export] Instance exn_ret : MRet (sum exn) := fun A a => inr a.

#[export] Instance exn_bind : MBind (sum exn) := fun A B k m =>
  match m with
  | inl e => inl e
  | inr a => k a
  end.

Section Parse.

Variable float : Type.
Variable zero : float.

(** A value as [json.load] returns it: [None], a [bool], an [int], a
    [float], a [str], a [list] or a [dict] with string keys.  Reading and
    parsing the text of the file is not modelled: the function below
    starts from the loaded value. *)
#[warnings="-register-all"] Inductive json : Type :=
| JNone
| JBool (b : bool)
| JInt (n : Z)
| JFloat (x : float)
| JStr (s : string)
| JList (l : list json)
| JDict (d : gmap string json).

(** [key in v] for a string [key]: a key of a dict, an element of a
    list, a substring of a string; other values are not containers. *)
Definition contains (key : string) (v : json) : exn + bool :=
  match v with
  | JDict d => inr (bool_decide (is_Some (d !! key)))
  | JList l =>
      inr (existsb (fun x => match x with
                             | JStr s => String.eqb s key
                             | _ => false
                             end) l)
  | JStr s =>
      inr (match String.index 0 key s with
           | Some _ => true
           | None => false
           end)
  | _ => inl TypeError
  end.

(** [v[key]] for a string [key]. *)
Definition getitem (key : string) (v : json) : exn + json :=
  match v with
  | JDict d =>
      match d !! key with
      | Some x => inr x
      | None => inl KeyError
      end
  | _ => inl TypeError
  end.

(** [len(v)] *)
Definition len (v : json) : exn + Z :=
  match v with
  | JDict d => inr (Z.of_nat (size d))
  | JList l => inr (Z.of_nat (length l))
  | JStr s => inr (Z.of_nat (String.length s))
  | _ => inl TypeError
  end.

(** [v[0]]: the keys of a loaded dict are strings, so [0] is never one
    of them. *)
Definition getitem_0 (v : json) : exn + json :=
  match v with
  | JList (x :: _) => inr x
  | JList [] => inl IndexError
  | JStr (String c _) => inr (JStr (String c EmptyString))
  | JStr EmptyString => inl IndexError
  | JDict _ => inl KeyError
  | _ => inl TypeError
  end.

(** [v.get(key, default)]: only a dict has the method. *)
Definition get (key : string) (default : json) (v : json) : exn + json :=
  match v with
  | JDict d =>
      match d !! key with
      | Some x => inr x
      | None => inr default
      end
  | _ => inl AttributeError
  end.

(** [parse_benchmark_result], from the value [data] loaded from the
    file; the result is [None] or the dictionary [result]. *)
Definition parse_benchmark_result (data : json)
    : exn + option (gmap string json) :=
  found ← contains "benchmarks" data ;
  if negb found then inr None else
  benchmarks ← getitem "benchmarks" data ;
  n ← len benchmarks ;
  if n =? 0 then inr None else
  bench ← getitem_0 benchmarks ;
  name ← get "name" (JStr "") bench ;
  threads ← get "threads" (JInt 1) bench ;
  iterations ← get "iterations" (JInt 0) bench ;
  real_time ← get "real_time" (JInt 0) bench ;
  cpu_time ← get "cpu_time" (JInt 0) bench ;
  time_unit ← get "time_unit" (JStr "ms") bench ;
  let result : gmap string json :=
    <["time_unit" := time_unit]>
      (<["cpu_time" := cpu_time]>
         (<["real_time" := real_time]>
            (<["iterations" := iterations]>
               (<["threads" := threads]>
                  (<["name" := name]> ∅))))) in
  has_counters ← contains "counters" bench ;
  if has_counters : bool then
    counters ← getitem "counters" bench ;
    v ← get "Recall" (JFloat zero) counters ;
    let result := <["recall" := v]> result in
    v ← get "items_per_second" (JFloat zero) counters ;
    let result := <["qps" := v]> result in
    v ← get "total_queries" (JInt 0) counters ;
    let result := <["total_queries" := v]> result in
    v ← get "Latency" (JFloat zero) counters ;
    let result := <["latency" := v]> result in
    v ← get "end_to_end" (JFloat zero) counters ;
    let result := <["end_to_end" := v]> result in
    v ← get "itopk" (JInt 0) counters ;
    let result := <["itopk" := v]> result in
    v ← get "search_width" (JInt 0) counters ;
    let result := <["search_width" := v]> result in
    v ← get "refine_ratio" (JFloat zero) counters ;
    let result := <["refine_ratio" := v]> result in
    inr (Some result)
  else inr (Some result).

(** [if result:] for the value returned above: [None] and the empty
    dict are false. *)
Definition truthy (result : option (gmap string json)) : bool :=
  match result with
  | Some d => negb (bool_decide (d = ∅))
  | None => false
  end.

(** Lines 73-78 of [main]: the list [results], from the values loaded
    from the result files in the order of the files. *)
Fixpoint collect_results (loaded : list json)
    : exn + list (gmap string json) :=
  match loaded with
  | [] => inr []
  | data :: rest =>
      result ← parse_benchmark_result data ;
      results ← collect_results rest ;
      match result with
      | Some d => inr (if truthy result then d :: results else results)
      | None => inr results
      end
  end.

End Parse.

Arguments JNone {float}.
Arguments JBool {float}.
Arguments JInt {float}.
Arguments JFloat {float}.
Arguments JStr {float}.
Arguments JList {float}.
Arguments JDict {float}.
Arguments contains {float}.
Arguments getitem {float}.
Arguments len {float}.
Arguments getitem_0 {float}.
Arguments get {float}.
Arguments parse_benchmark_result {float}.
Arguments truthy {float}.
Arguments collect_results {float}.

End ParseBenchmarkResult.

(** ** From the dictionaries of the parser to the records of the summary *)

Module ParsedRecords.

Import AnalyzeCagraResults ParseBenchmarkResult.

Section Typed.

Variable float : Type.

Definition as_string (v : json float) : option string :=
  match v with
  | JStr s => Some s
  | _ => None
  end.

Definition as_int (v : json float) : option Z :=
  match v with
  | JInt n => Some n
  | _ => None
  end.

Definition as_number (v : json float) : option (number float) :=
  match v with
  | JInt n => Some (Int n)
  | JFloat x => Some (Float x)
  | _ => None
  end.

(** The record that a dictionary stands for when its values have the
    types of the benchmark output: the six base keys are there, with
    strings under name and time_unit, an integer under threads and
    numbers under the others; the eight counter keys are all absent, or
    all there with numbers.  Any other dictionary has no record. *)
Definition record_of (d : gmap string (json float)) : option (result float) :=
  name ← d !! "name" ≫= as_string ;
  threads ← d !! "threads" ≫= as_int ;
  iterations ← d !! "iterations" ≫= as_number ;
  real_time ← d !! "real_time" ≫= as_number ;
  cpu_time ← d !! "cpu_time" ≫= as_number ;
  time_unit ← d !! "time_unit" ≫= as_string ;
  custom ←
    match d !! "recall", d !! "qps", d !! "total_queries", d !! "latency",
          d !! "end_to_end", d !! "itopk", d !! "search_width",
          d !! "refine_ratio" with
    | None, None, None, None, None, None, None, None => Some None
    | Some v1, Some v2, Some v3, Some v4, Some v5, Some v6, Some v7, Some v8 =>
        recall ← as_number v1 ;
        qps ← as_number v2 ;
        total_queries ← as_number v3 ;
        latency ← as_number v4 ;
        end_to_end ← as_number v5 ;
        itopk ← as_number v6 ;
        search_width ← as_number v7 ;
        refine_ratio ← as_number v8 ;
        Some (Some (Counters recall qps total_queries latency end_to_end
                      itopk search_width refine_ratio))
    | _, _, _, _, _, _, _, _ => None
    end ;
  Some (Result name threads iterations real_time cpu_time time_unit custom).

(** The loaded value of a number. *)
Definition json_of (v : number float) : json float :=
  match v with
  | Int n => JInt n
  | Float x => JFloat x
  end.

End Typed.

Arguments as_string {float}.
Arguments as_int {float}.
Arguments as_number {float}.
Arguments record_of {float}.
Arguments json_of {float}.

End ParsedRecords.

(** * Properties *)

(** ** The byte codec *)

Module StructFacts.

Import Struct.

Lemma byte_to_Z_range (b : byte) : 0 <= byte_to_Z b < 256.
Proof.
  unfold byte_to_Z. pose proof (Byte.to_N_bounded b). lia.
Qed.

Lemma byte_to_of_Z (z : Z) : byte_to_Z (Z_to_byte z) = z mod 256.
Proof.
  unfold byte_to_Z, Z_to_byte.
  assert (Hr : 0 <= z mod 256 < 256) by (apply Z.mod_pos_bound; lia).
  destruct (Byte.of_N (Z.to_N (z mod 256))) as [b|] eqn:E.
  - apply Byte.to_of_N in E. rewrite E. lia.
  - apply Byte.of_N_None_iff in E. lia.
Qed.

Lemma Z_to_of_byte (b : byte) : Z_to_byte (byte_to_Z b) = b.
Proof.
  unfold Z_to_byte.
  pose proof (byte_to_Z_range b) as Hr.
  rewrite Z.mod_small by lia.
  unfold byte_to_Z. rewrite N2Z.id, Byte.of_to_N. reflexivity.
Qed.

Lemma length_le32 (v : Z) : length (le32 v) = 4%nat.
Proof. reflexivity. Qed.

Lemma le_decode_le32 (v : Z) : le_decode (le32 v) = v mod 2 ^ 32.
Proof.
  unfold le32, le_decode. rewrite !byte_to_of_Z, !Z.shiftr_div_pow2 by lia.
  change (2 ^ 8) with 256. change (2 ^ 16) with 65536.
  change (2 ^ 24) with 16777216. change (2 ^ 32) with 4294967296.
  replace (v / 65536) with (v / 256 / 256)
    by (rewrite Z.div_div by lia; reflexivity).
  replace (v / 16777216) with (v / 256 / 256 / 256)
    by (rewrite !Z.div_div by lia; reflexivity).
  set (q1 := v / 256). set (q2 := q1 / 256). set (q3 := q2 / 256).
  pose proof (Z.div_mod v 256 ltac:(lia)) as H0. fold q1 in H0.
  pose proof (Z.div_mod q1 256 ltac:(lia)) as H1. fold q2 in H1.
  pose proof (Z.div_mod q2 256 ltac:(lia)) as H2. fold q3 in H2.
  pose proof (Z.div_mod q3 256 ltac:(lia)) as H3.
  pose proof (Z.mod_pos_bound v 256 ltac:(lia)).
  pose proof (Z.mod_pos_bound q1 256 ltac:(lia)).
  pose proof (Z.mod_pos_bound q2 256 ltac:(lia)).
  pose proof (Z.mod_pos_bound q3 256 ltac:(lia)).
  apply Z.mod_unique with (q := q3 / 256); lia.
Qed.

Lemma le_decode_range (bs : list byte) :
  0 <= le_decode bs < 256 ^ Z.of_nat (length bs).
Proof.
  induction bs as [|b bs IH].
  - simpl. lia.
  - cbn [le_decode length]. rewrite Nat2Z.inj_succ, Z.pow_succ_r by lia.
    pose proof (byte_to_Z_range b). lia.
Qed.

Lemma Z_to_byte_low (a : byte) (k : Z) : Z_to_byte (byte_to_Z a + 256 * k) = a.
Proof.
  rewrite <- (Z_to_of_byte a) at 2. unfold Z_to_byte.
  pose proof (byte_to_Z_range a) as Hr.
  replace ((byte_to_Z a + 256 * k) mod 256) with (byte_to_Z a mod 256);
    [reflexivity|].
  rewrite (Z.mod_small (byte_to_Z a)) by lia.
  apply Z.mod_unique with (q := k); lia.
Qed.

Lemma le32_le_decode (bs : list byte) :
  length bs = 4%nat -> le32 (le_decode bs) = bs.
Proof.
  intros Hl.
  destruct bs as [|a [|b [|c [|d [|? ?]]]]]; try discriminate.
  unfold le32, le_decode. rewrite !Z.shiftr_div_pow2 by lia.
  change (2 ^ 8) with 256. change (2 ^ 16) with 65536.
  change (2 ^ 24) with 16777216.
  pose proof (byte_to_Z_range a). pose proof (byte_to_Z_range b).
  pose proof (byte_to_Z_range c). pose proof (byte_to_Z_range d).
  set (x := byte_to_Z a) in *. set (y := byte_to_Z b) in *.
  set (z := byte_to_Z c) in *. set (t := byte_to_Z d) in *.
  replace ((x + 256 * (y + 256 * (z + 256 * (t + 256 * 0)))) / 256)
    with (y + 256 * (z + 256 * t))
    by (apply Z.div_unique with (r := x); lia).
  replace ((x + 256 * (y + 256 * (z + 256 * (t + 256 * 0)))) / 65536)
    with (z + 256 * t)
    by (apply Z.div_unique with (r := x + 256 * y); lia).
  replace ((x + 256 * (y + 256 * (z + 256 * (t + 256 * 0)))) / 16777216)
    with (t + 256 * 0)
    by (apply Z.div_unique with (r := x + 256 * y + 65536 * z); lia).
  subst x y z t. rewrite !Z_to_byte_low. reflexivity.
Qed.

Lemma unpack_i_le32 (v : Z) :
  0 <= v < 2 ^ 32 ->
  unpack_i (le32 v) = inr (if 2 ^ 31 <=? v then v - 2 ^ 32 else v).
Proof.
  intros Hv. unfold unpack_i. rewrite length_le32. cbn [Nat.eqb].
  rewrite le_decode_le32, Z.mod_small by lia. reflexivity.
Qed.

Lemma pack_I_inr (v : Z) :
  0 <= v < 2 ^ 32 -> pack_I v = inr (le32 v).
Proof.
  intros Hv. unfold pack_I.
  destruct (0 <=? v) eqn:E1; [|lia].
  destruct (v <=? 2 ^ 32 - 1) eqn:E2; [reflexivity|lia].
Qed.

Lemma pack_I_inl (v : Z) :
  ~ (0 <= v < 2 ^ 32) -> pack_I v = inl argument_out_of_range.
Proof.
  intros Hv. unfold pack_I.
  destruct (0 <=? v) eqn:E1; [|reflexivity].
  destruct (v <=? 2 ^ 32 - 1) eqn:E2; [lia|reflexivity].
Qed.

Lemma unpack_i_take_le32 (v : Z) (rest : list byte) :
  unpack_i (take 4 (le32 v ++ rest)) = unpack_i (le32 v).
Proof. reflexivity. Qed.

Lemma unpack_i_inr (b : list byte) (v : Z) :
  unpack_i b = inr v ->
  length b = 4%nat /\
  v = (if 2 ^ 31 <=? le_decode b then le_decode b - 2 ^ 32 else le_decode b).
Proof.
  unfold unpack_i. destruct (length b =? 4)%nat eqn:E; [|discriminate].
  apply Nat.eqb_eq in E. intros [= <-]. split; [exact E|reflexivity].
Qed.

Lemma unpack_i_range (b : list byte) (v : Z) :
  unpack_i b = inr v -> - 2 ^ 31 <= v < 2 ^ 31.
Proof.
  intros H. apply unpack_i_inr in H as [Hl ->].
  pose proof (le_decode_range b) as Hr. rewrite Hl in Hr.
  change (256 ^ Z.of_nat 4) with (2 ^ 32) in Hr.
  destruct (2 ^ 31 <=? le_decode b) eqn:E; lia.
Qed.

(** A word that decodes to a nonnegative value is written back as the
    same four bytes. *)
Lemma pack_I_unpack_i (b : list byte) (v : Z) :
  unpack_i b = inr v -> 0 <= v -> pack_I v = inr b.
Proof.
  intros H Hv. pose proof (unpack_i_range _ _ H) as Hr.
  apply unpack_i_inr in H as [Hl Hd].
  rewrite pack_I_inr by lia. f_equal.
  destruct (2 ^ 31 <=? le_decode b) eqn:E.
  - pose proof (le_decode_range b) as Hb. rewrite Hl in Hb.
    change (256 ^ Z.of_nat 4) with (2 ^ 32) in Hb. lia.
  - subst v. apply le32_le_decode, Hl.
Qed.

End StructFacts.

(** ** The converter *)

Module ConvertFacts.

Import Struct StructFacts ConvertDataset.

Section Facts.

Context {platform : Platform}.

(** *** What one call of [convert_bin_to_fbin] does, case by case *)

Lemma read_error_4 (f : list byte) : read_error 4 f = None.
Proof.
  unfold read_error. pose proof memory_min as Hm.
  change (4 <? - PY_SSIZE_T_MAX - 1) with false.
  change (4 <? -1) with false. change (PY_SSIZE_T_MAX <? 4) with false.
  cbv iota.
  destruct (Z.of_nat (length f) <? 4); [|reflexivity].
  destruct (memory <? 4) eqn:E; [lia|reflexivity].
Qed.

Lemma read_error_fits (n : Z) (f : list byte) :
  -1 <= n <= Z.of_nat (length f) -> read_error n f = None.
Proof.
  intros Hn. unfold read_error, PY_SSIZE_T_MAX.
  destruct (n <? - (2 ^ 63 - 1) - 1) eqn:E1; [lia|].
  destruct (n <? -1) eqn:E2; [lia|].
  destruct (Z.of_nat (length f) <? n) eqn:E3; [lia|reflexivity].
Qed.

Lemma read_error_None (n : Z) (f : list byte) :
  read_error n f = None -> -1 <= n.
Proof.
  unfold read_error, PY_SSIZE_T_MAX.
  destruct (n <? - (2 ^ 63 - 1) - 1) eqn:E1; [discriminate|].
  destruct (n <? -1) eqn:E2; [discriminate|]. lia.
Qed.

Lemma read_error_Exception (n : Z) (f : list byte) (e : exn) :
  read_error n f = Some e -> is_Exception e = true.
Proof.
  unfold read_error.
  repeat match goal with
         | |- context [if ?b then _ else _] => destruct b
         end; intros [= <-]; reflexivity.
Qed.

Lemma read_error_not_struct (n : Z) (f : list byte) (e : exn)
    (se : Struct.error) :
  read_error n f = Some e -> e <> struct_error se.
Proof.
  unfold read_error.
  repeat match goal with
         | |- context [if ?b then _ else _] => destruct b
         end; intros [= <-]; discriminate.
Qed.

Lemma read_error_short (n : Z) (f : list byte) :
  Z.of_nat (length f) < n ->
  read_error n f =
  if PY_SSIZE_T_MAX <? n then Some OverflowError
  else if memory <? n then Some MemoryError
  else None.
Proof.
  intros Hn. unfold read_error, PY_SSIZE_T_MAX.
  destruct (n <? - (2 ^ 63 - 1) - 1) eqn:E1; [lia|].
  destruct (n <? -1) eqn:E2; [lia|].
  destruct (Z.of_nat (length f) <? n) eqn:E3; [reflexivity|lia].
Qed.

Lemma read_error_negative (n : Z) (f : list byte) :
  n < -1 ->
  read_error n f =
  Some (if n <? - PY_SSIZE_T_MAX - 1 then OverflowError
        else ValueError_read_length).
Proof.
  intros Hn. unfold read_error.
  destruct (n <? - PY_SSIZE_T_MAX - 1); [reflexivity|].
  destruct (n <? -1) eqn:E2; [reflexivity|lia].
Qed.

Lemma convert_bin_to_fbin_unfold (input_file output_file data_type : string)
    (w : world) :
  convert_bin_to_fbin input_file output_file data_type w =
  let out1 := stdout w ++ [Converting input_file output_file] in
  match files w !! input_file with
  | None => (Raise (FileNotFoundError input_file), World (files w) out1)
  | Some c =>
      match decode_internal c with
      | inl e => (Raise (struct_error e), World (files w) out1)
      | inr (dim, count) =>
          let out2 := out1 ++ [Input_format dim count] in
          let data_size :=
            dim * count * (if String.eqb data_type "f" then 4 else 8) in
          match read_error data_size (skipn 8 c) with
          | Some e => (Raise e, World (files w) out2)
          | None =>
              let data :=
                if data_size =? -1 then skipn 8 c
                else firstn (Z.to_nat data_size) (skipn 8 c) in
              if Z.of_nat (length data) =? data_size then
                match pack_I count with
                | inl e =>
                    (Raise (struct_error e),
                     World (<[output_file := []]> (files w)) out2)
                | inr b1 =>
                    match pack_I dim with
                    | inl e =>
                        (Raise (struct_error e),
                         World (<[output_file := b1]> (files w)) out2)
                    | inr b2 =>
                        (Return tt,
                         World (<[output_file := b1 ++ b2 ++ data]> (files w))
                           (out2 ++ [Output_format count dim;
                                     Conversion_successful]))
                    end
                end
              else
                (Raise (ValueError_data_size_mismatch data_size
                          (Z.of_nat (length data))),
                 World (files w) out2)
          end
      end
  end.
Proof.
  unfold convert_bin_to_fbin, decode_internal.
  unfold mbind, M_bind, print, open_rb. cbn [files stdout].
  destruct (files w !! input_file) as [c|]; [|reflexivity].
  unfold f_read at 1. rewrite read_error_4.
  cbn [Z.eqb mret M_ret]. change (Z.to_nat 4) with 4%nat.
  unfold unpack at 1.
  destruct (unpack_i (take 4 c)) as [e|dim]; [reflexivity|].
  cbn [mret M_ret]. unfold f_read at 1. rewrite read_error_4.
  cbn [Z.eqb mret M_ret]. change (Z.to_nat 4) with 4%nat.
  unfold unpack at 1.
  destruct (unpack_i (take 4 (drop 4 c))) as [e|count]; [reflexivity|].
  cbn [mret M_ret files stdout].
  rewrite drop_drop. change (4 + 4)%nat with 8%nat.
  set (data_size := dim * count * _).
  unfold f_read.
  destruct (read_error data_size (drop 8 c)); [reflexivity|].
  destruct (data_size =? -1); cbn [mret M_ret].
  all: match goal with
       | |- context [Z.of_nat (length ?d) =? ?n] =>
           destruct (Z.of_nat (length d) =? n)
       end; cbn [negb raise]; try reflexivity.
  all: unfold open_wb, pack, f_write; cbn [files stdout].
  all: destruct (pack_I count) as [e|b1]; [reflexivity|].
  all: cbn [mret M_ret files stdout].
  all: rewrite alter_insert_eq.
  all: destruct (pack_I dim) as [e|b2]; [reflexivity|].
  all: cbn [mret M_ret files stdout app].
  all: rewrite !alter_insert_eq.
  all: rewrite <- !app_assoc; reflexivity.
Qed.

(** The size that is computed is a multiple of the element size, so the
    "read everything" length [-1] never occurs. *)
Lemma data_size_not_minus_1 (dim count : Z) (data_type : string) :
  (dim * count * (if String.eqb data_type "f" then 4 else 8) =? -1) = false.
Proof.
  apply Z.eqb_neq. destruct (String.eqb data_type "f"); lia.
Qed.

Lemma decode_internal_inr (c : list byte) (dim count : Z) :
  decode_internal c = inr (dim, count) ->
  unpack_i (take 4 c) = inr dim /\ unpack_i (take 4 (drop 4 c)) = inr count.
Proof.
  unfold decode_internal.
  destruct (unpack_i (take 4 c)) as [e|d]; [discriminate|].
  destruct (unpack_i (take 4 (drop 4 c))) as [e|n]; [discriminate|].
  intros [= <- <-]. split; reflexivity.
Qed.

Lemma decode_internal_le32 (dimension count : Z) (payload : list byte) :
  0 <= dimension < 2 ^ 32 -> 0 <= count < 2 ^ 32 ->
  decode_internal (le32 dimension ++ le32 count ++ payload) =
  inr (if 2 ^ 31 <=? dimension then dimension - 2 ^ 32 else dimension,
       if 2 ^ 31 <=? count then count - 2 ^ 32 else count).
Proof.
  intros Hd Hc. unfold decode_internal.
  rewrite unpack_i_take_le32, unpack_i_le32 by lia.
  change (drop 4 (le32 dimension ++ le32 count ++ payload))
    with (le32 count ++ payload).
  rewrite unpack_i_take_le32, unpack_i_le32 by lia. reflexivity.
Qed.

(** A call never raises [SystemExit], so the loop's [except Exception]
    catches whatever it raises. *)
Lemma convert_raises_Exception (input_file output_file data_type : string)
    (w w' : world) (e : exn) :
  convert_bin_to_fbin input_file output_file data_type w = (Raise e, w') ->
  is_Exception e = true.
Proof.
  rewrite convert_bin_to_fbin_unfold. cbv zeta.
  destruct (files w !! input_file) as [c|]; [|intros [= <- <-]; reflexivity].
  destruct (decode_internal c) as [?|[dim count]];
    [intros [= <- <-]; reflexivity|].
  destruct (read_error _ _) as [e'|] eqn:Hr.
  { intros [= <- <-]. exact (read_error_Exception _ _ _ Hr). }
  repeat match goal with
         | |- context [match ?x with _ => _ end] => destruct x
         end; intros [= <- <-]; reflexivity.
Qed.

(** A call touches no file other than its output file. *)
Lemma convert_other_files (input_file output_file data_type : string)
    (w w' : world) (r : result unit) (p : string) :
  convert_bin_to_fbin input_file output_file data_type w = (r, w') ->
  p <> output_file ->
  files w' !! p = files w !! p.
Proof.
  rewrite convert_bin_to_fbin_unfold. cbv zeta. intros H Hp.
  repeat match type of H with
         | context [match ?x with _ => _ end] => destruct x
         end; injection H as <- <-; cbn [files];
    rewrite ?lookup_insert_ne by congruence; reflexivity.
Qed.

(** When the header cannot be re-encoded, the call raises: either
    earlier, on the size, or at the [struct.pack] that refuses. *)
Lemma convert_raises_when_encode_fails
    (input_file output_file data_type : string) (w : world)
    (c : list byte) (dim count : Z) (e0 : Struct.error) :
  files w !! input_file = Some c ->
  decode_internal c = inr (dim, count) ->
  encode_standard dim count = inl e0 ->
  exists (e : exn) (w' : world),
    convert_bin_to_fbin input_file output_file data_type w = (Raise e, w').
Proof.
  intros Hc Hd He. rewrite convert_bin_to_fbin_unfold, Hc, Hd. cbv zeta.
  unfold encode_standard in He.
  destruct (read_error _ _); [eauto|].
  destruct (_ =? _); [|eauto].
  destruct (pack_I count) as [?|b1]; [eauto|].
  destruct (pack_I dim) as [?|b2]; [eauto|discriminate].
Qed.

Lemma encode_standard_out_of_range (dim count : Z) :
  ~ (0 <= dim < 2 ^ 32 /\ 0 <= count < 2 ^ 32) ->
  encode_standard dim count = inl argument_out_of_range.
Proof.
  intros H. unfold encode_standard.
  destruct (Z_lt_le_dec count 0) as [Hc|Hc];
    [rewrite (pack_I_inl count) by lia; reflexivity|].
  destruct (Z_lt_le_dec count (2 ^ 32)) as [Hc'|Hc'];
    [|rewrite (pack_I_inl count) by lia; reflexivity].
  rewrite (pack_I_inr count) by lia.
  rewrite (pack_I_inl dim) by lia. reflexivity.
Qed.

(** A call that returns has written the encoded header followed by the
    bytes it read after the input header. *)
Lemma convert_returns_encode_standard
    (input_file output_file data_type : string) (w w' : world) :
  convert_bin_to_fbin input_file output_file data_type w = (Return tt, w') ->
  exists (c header : list byte) (dim count : Z),
    files w !! input_file = Some c /\
    decode_internal c = inr (dim, count) /\
    encode_standard dim count = inr header /\
    files w' =
      <[output_file :=
          header ++
          take (Z.to_nat (dim * count *
                          (if String.eqb data_type "f" then 4 else 8)))
            (drop 8 c)]> (files w).
Proof.
  rewrite convert_bin_to_fbin_unfold. cbv zeta.
  destruct (files w !! input_file) as [c|] eqn:Hin; [|discriminate].
  destruct (decode_internal c) as [?|[dim count]] eqn:Hdec; [discriminate|].
  rewrite data_size_not_minus_1.
  destruct (read_error _ _); [discriminate|].
  destruct (_ =? _); [|discriminate].
  destruct (pack_I count) as [?|b1] eqn:Hb1; [discriminate|].
  destruct (pack_I dim) as [?|b2] eqn:Hb2; [discriminate|].
  intros [= <-]. exists c, (b1 ++ b2), dim, count.
  unfold encode_standard. rewrite Hb1, Hb2. cbn [files].
  split; [reflexivity|]. split; [exact Hdec|]. split; [reflexivity|].
  rewrite <- app_assoc. reflexivity.
Qed.

(** *** The header *)

(** C1, as amended.  For every pair (dimension, count) of integers in
    [0, 2^31 - 1], decoding the internal-layout header built from them as
    the conversion does and re-encoding the decoded pair as it does yields
    an 8-byte header whose first word is count and whose second word is
    dimension. *)
Theorem header_round_trip_int32 (dimension count : Z) :
  0 <= dimension < 2 ^ 31 ->
  0 <= count < 2 ^ 31 ->
  exists (dim cnt : Z) (header : list byte),
    decode_internal (le32 dimension ++ le32 count) = inr (dim, cnt) /\
    encode_standard dim cnt = inr header /\
    length header = 8%nat /\
    le_decode (take 4 header) = count /\
    le_decode (drop 4 header) = dimension.
Proof.
  intros Hd Hc. exists dimension, count, (le32 count ++ le32 dimension).
  split.
  - rewrite <- (app_nil_r (le32 count)) at 1.
    rewrite decode_internal_le32 by lia.
    destruct (2 ^ 31 <=? dimension) eqn:E1; [lia|].
    destruct (2 ^ 31 <=? count) eqn:E2; [lia|]. reflexivity.
  - split.
    + unfold encode_standard. rewrite !pack_I_inr by lia. reflexivity.
    + split; [reflexivity|].
      change (take 4 (le32 count ++ le32 dimension)) with (le32 count).
      change (drop 4 (le32 count ++ le32 dimension)) with (le32 dimension).
      rewrite !le_decode_le32, !Z.mod_small by lia. split; reflexivity.
Qed.

(** C7.  The encoder accepts a pair exactly when both values are in
    [0, 2^32 - 1], writing their little-endian words, count first; a
    value outside that range makes it fail with [struct.error] instead
    of being cut to 32 bits, and a conversion that decoded such a pair
    raises. *)
Theorem encode_standard_range_check (dim count : Z) :
  (0 <= dim < 2 ^ 32 /\ 0 <= count < 2 ^ 32 ->
   encode_standard dim count = inr (le32 count ++ le32 dim)) /\
  (~ (0 <= dim < 2 ^ 32 /\ 0 <= count < 2 ^ 32) ->
   encode_standard dim count = inl argument_out_of_range /\
   forall (input_file output_file data_type : string) (w : world)
          (c : list byte),
     files w !! input_file = Some c ->
     decode_internal c = inr (dim, count) ->
     exists (e : exn) (w' : world),
       convert_bin_to_fbin input_file output_file data_type w = (Raise e, w')).
Proof.
  split.
  - intros [Hd Hc]. unfold encode_standard.
    rewrite !pack_I_inr by lia. reflexivity.
  - intros H.
    pose proof (encode_standard_out_of_range dim count H) as He.
    split; [exact He|].
    intros input_file output_file data_type w c Hc Hd.
    eapply convert_raises_when_encode_fails; eassumption.
Qed.

(** *** One conversion *)

(** C2, as amended.  For every input file made of the words of a
    dimension and a count in [0, 2^31 - 1] followed by a payload P of
    exactly dimension * count * element_size bytes, the conversion
    returns normally, the output file is the transposed header followed
    by P, bit for bit, and no other file changes. *)
Theorem convert_preserves_payload
    (input_file output_file data_type : string) (w : world)
    (dimension count : Z) (P : list byte) :
  0 <= dimension < 2 ^ 31 ->
  0 <= count < 2 ^ 31 ->
  files w !! input_file = Some (le32 dimension ++ le32 count ++ P) ->
  Z.of_nat (length P) =
    dimension * count * (if String.eqb data_type "f" then 4 else 8) ->
  exists (w' : world) (out : list byte),
    convert_bin_to_fbin input_file output_file data_type w = (Return tt, w') /\
    files w' !! output_file = Some out /\
    take 8 out = le32 count ++ le32 dimension /\
    drop 8 out = P /\
    forall p : string, p <> output_file -> files w' !! p = files w !! p.
Proof.
  intros Hd Hc Hin Hlen.
  pose proof (convert_bin_to_fbin_unfold input_file output_file data_type w)
    as Hrun.
  rewrite Hin, decode_internal_le32 in Hrun by lia. cbv zeta in Hrun.
  destruct (2 ^ 31 <=? dimension) eqn:E1; [lia|].
  destruct (2 ^ 31 <=? count) eqn:E2; [lia|].
  rewrite data_size_not_minus_1 in Hrun.
  rewrite <- Hlen in Hrun.
  change (drop 8 (le32 dimension ++ le32 count ++ P)) with P in Hrun.
  rewrite read_error_fits in Hrun by lia.
  rewrite Nat2Z.id, firstn_all, Z.eqb_refl in Hrun.
  rewrite !pack_I_inr in Hrun by lia.
  eexists _, _. split; [exact Hrun|]. cbn [files].
  split; [apply lookup_insert_eq|].
  split; [reflexivity|]. split; [reflexivity|].
  intros p Hp. apply lookup_insert_ne. congruence.
Qed.


(** C4.  Whenever the conversion fails with the data size mismatch
    error, the file system is exactly as before the call: the error is
    raised before the output file is opened, so no output file is
    created or changed. *)
Theorem size_mismatch_writes_nothing
    (input_file output_file data_type : string) (w w' : world)
    (expected got : Z) :
  convert_bin_to_fbin input_file output_file data_type w =
    (Raise (ValueError_data_size_mismatch expected got), w') ->
  files w' = files w.
Proof.
  rewrite convert_bin_to_fbin_unfold. cbv zeta. intros H.
  destruct (files w !! input_file) as [c|]; [|discriminate].
  destruct (decode_internal c) as [?|[dim count]]; [discriminate|].
  destruct (read_error _ _) as [e'|]; [injection H as _ <-; reflexivity|].
  repeat match type of H with
         | context [match ?x with _ => _ end] => destruct x
         end; try discriminate; injection H as _ _ <-; reflexivity.
Qed.

(** C9.  Each header word is decoded as a signed 32-bit integer: a
    word that encodes a value in [2^31, 2^32 - 1] is read as that value
    minus 2^32, a negative number, and on every input file with such a
    first or second word the conversion raises. *)
Theorem negative_header_word_raises
    (input_file output_file data_type : string) (w : world) (c : list byte) :
  files w !! input_file = Some c ->
  (8 <= length c)%nat ->
  2 ^ 31 <= le_decode (take 4 c) \/ 2 ^ 31 <= le_decode (take 4 (drop 4 c)) ->
  exists dim count : Z,
    decode_internal c = inr (dim, count) /\
    (2 ^ 31 <= le_decode (take 4 c) ->
     dim = le_decode (take 4 c) - 2 ^ 32 /\ dim < 0) /\
    (2 ^ 31 <= le_decode (take 4 (drop 4 c)) ->
     count = le_decode (take 4 (drop 4 c)) - 2 ^ 32 /\ count < 0) /\
    exists (e : exn) (w' : world),
      convert_bin_to_fbin input_file output_file data_type w = (Raise e, w').
Proof.
  intros Hin Hlen Hneg.
  assert (H1 : length (take 4 c) = 4%nat) by (rewrite length_take; lia).
  assert (H2 : length (take 4 (drop 4 c)) = 4%nat)
    by (rewrite length_take, length_drop; lia).
  pose proof (le_decode_range (take 4 c)) as R1. rewrite H1 in R1.
  pose proof (le_decode_range (take 4 (drop 4 c))) as R2. rewrite H2 in R2.
  change (256 ^ Z.of_nat 4) with (2 ^ 32) in R1, R2.
  set (u1 := le_decode (take 4 c)) in *.
  set (u2 := le_decode (take 4 (drop 4 c))) in *.
  assert (Hdec : decode_internal c =
                 inr (if 2 ^ 31 <=? u1 then u1 - 2 ^ 32 else u1,
                      if 2 ^ 31 <=? u2 then u2 - 2 ^ 32 else u2)).
  { unfold decode_internal, unpack_i. rewrite H1, H2. reflexivity. }
  eexists _, _. split; [exact Hdec|].
  split; [intros Hu; destruct (2 ^ 31 <=? u1) eqn:E; lia|].
  split; [intros Hu; destruct (2 ^ 31 <=? u2) eqn:E; lia|].
  eapply convert_raises_when_encode_fails with (e0 := argument_out_of_range);
    [exact Hin|exact Hdec|].
  apply encode_standard_out_of_range.
  destruct (2 ^ 31 <=? u1) eqn:E1; destruct (2 ^ 31 <=? u2) eqn:E2; lia.
Qed.

(** C10.  For every input file of exactly eight bytes whose two words
    decode to nonnegative values with dim * count = 0, the conversion
    returns normally and the output file is exactly the eight bytes of
    the transposed header: the second word, then the first, and no
    payload. *)
Theorem empty_payload_converts
    (input_file output_file data_type : string) (w : world)
    (c : list byte) (dim count : Z) :
  files w !! input_file = Some c ->
  length c = 8%nat ->
  decode_internal c = inr (dim, count) ->
  0 <= dim -> 0 <= count -> dim * count = 0 ->
  exists w' : world,
    convert_bin_to_fbin input_file output_file data_type w = (Return tt, w') /\
    files w' = <[output_file := drop 4 c ++ take 4 c]> (files w) /\
    length (drop 4 c ++ take 4 c) = 8%nat.
Proof.
  intros Hin Hlen Hdec Hd Hc Hz.
  rewrite convert_bin_to_fbin_unfold, Hin, Hdec. cbv zeta.
  apply decode_internal_inr in Hdec as [U1 U2].
  rewrite Hz, Z.mul_0_l, read_error_fits by lia.
  cbn [Z.ltb Z.eqb Z.compare Z.to_nat take length Z.of_nat].
  rewrite (pack_I_unpack_i _ _ U2 Hc), (pack_I_unpack_i _ _ U1 Hd).
  rewrite app_nil_r.
  rewrite (take_ge (drop 4 c)) by (rewrite length_drop; lia).
  eexists. split; [reflexivity|]. split; [reflexivity|].
  rewrite length_app, length_drop, length_take. lia.
Qed.

(** *** The loop over the manifest *)

Lemma main_loop_cons (input_dir output_dir : string)
    (input_name output_name dtype : string)
    (rest : list (string * string * string)) (w : world) :
  main_loop input_dir output_dir ((input_name, output_name, dtype) :: rest) w =
  match files w !! path_join input_dir input_name with
  | None =>
      main_loop input_dir output_dir rest
        (World (files w) (stdout w ++ [Warning_not_found_skipping input_name]))
  | Some _ =>
      match convert_bin_to_fbin (path_join input_dir input_name)
              (path_join output_dir output_name) dtype w with
      | (Return _, w') =>
          main_loop input_dir output_dir rest
            (World (files w') (stdout w' ++ [Blank]))
      | (Raise e, w') =>
          if is_Exception e then
            (Raise (SystemExit 1),
             World (files w') (stdout w' ++ [Error_converting input_name e]))
          else (Raise e, w')
      end
  end.
Proof.
  cbn [main_loop]. unfold mbind, M_bind, exists_, try_except, print, sys_exit, raise.
  destruct (files w !! path_join input_dir input_name) as [c|].
  - rewrite bool_decide_eq_true_2 by eauto. cbn [negb].
    destruct (convert_bin_to_fbin _ _ _ w) as [[[]|e] w']; cbn [files stdout].
    + reflexivity.
    + destruct (is_Exception e); reflexivity.
  - rewrite bool_decide_eq_false_2 by (intros [? ?]; discriminate).
    reflexivity.
Qed.

(** Entries that were processed without an abort are followed by the
    remaining ones. *)
Lemma main_loop_app (input_dir output_dir : string)
    (earlier rest : list (string * string * string)) (w w1 : world) :
  main_loop input_dir output_dir earlier w = (Return tt, w1) ->
  main_loop input_dir output_dir (earlier ++ rest) w =
  main_loop input_dir output_dir rest w1.
Proof.
  revert w. induction earlier as [|[[input_name output_name] dtype] earlier IH];
    intros w H.
  - injection H as <-. reflexivity.
  - rewrite <- app_comm_cons. rewrite main_loop_cons in *.
    destruct (files w !! path_join input_dir input_name); [|auto].
    destruct (convert_bin_to_fbin _ _ _ w) as [[[]|e] w']; [auto|].
    destruct (is_Exception e); discriminate.
Qed.

(** Whatever a call does, it only adds lines to what was printed. *)
Lemma convert_stdout_grows (input_file output_file data_type : string)
    (w w' : world) (r : result unit) :
  convert_bin_to_fbin input_file output_file data_type w = (r, w') ->
  exists suffix : list line, stdout w' = stdout w ++ suffix.
Proof.
  rewrite convert_bin_to_fbin_unfold. cbv zeta. intros H.
  repeat match type of H with
         | context [match ?x with _ => _ end] => destruct x
         end; injection H as <- <-; cbn [stdout];
    rewrite <- ?app_assoc; eauto.
Qed.

Lemma main_loop_stdout_grows (input_dir output_dir : string)
    (cs : list (string * string * string)) (w w' : world) (r : result unit) :
  main_loop input_dir output_dir cs w = (r, w') ->
  exists suffix : list line, stdout w' = stdout w ++ suffix.
Proof.
  revert w. induction cs as [|[[input_name output_name] dtype] cs IH];
    intros w H.
  - injection H as _ <-. exists []. rewrite app_nil_r. reflexivity.
  - rewrite main_loop_cons in H.
    destruct (files w !! path_join input_dir input_name).
    + destruct (convert_bin_to_fbin _ _ _ w) as [[[]|e] w1] eqn:Hconv;
        destruct (convert_stdout_grows _ _ _ _ _ _ Hconv) as [s1 Hs1].
      * apply IH in H as [s2 Hs2]. cbn [stdout] in Hs2.
        rewrite Hs2, Hs1, <- !app_assoc. eauto.
      * destruct (is_Exception e); injection H as _ <-; cbn [stdout];
          rewrite Hs1, <- ?app_assoc; eauto.
    + apply IH in H as [s2 Hs2]. cbn [stdout] in Hs2.
      rewrite Hs2, <- app_assoc. eauto.
Qed.

(** C5.  When the source file of a manifest entry is absent at its turn,
    the loop prints the warning for that entry, changes no file, and
    does not end there.  If the entry is the last one, the loop returns
    normally.  Otherwise the next entry is treated from that state in
    the usual way: skipped with its own warning when its source is
    absent too, converted when it exists, and followed by the entries
    after it unless that conversion raises.  This holds at the head of a
    manifest and after any entries that were processed without an
    abort, and the warning stays in what has been printed whatever
    happens afterwards. *)
Theorem main_loop_skips_missing (input_dir output_dir : string)
    (rest : list (string * string * string))
    (input_name output_name dtype : string) (w1 : world) :
  files w1 !! path_join input_dir input_name = None ->
  let w2 :=
    World (files w1) (stdout w1 ++ [Warning_not_found_skipping input_name]) in
  let continued : result unit * world :=
    match rest with
    | [] => (Return tt, w2)
    | (next_input, next_output, next_dtype) :: later =>
        match files w1 !! path_join input_dir next_input with
        | None =>
            main_loop input_dir output_dir later
              (World (files w1)
                 (stdout w2 ++ [Warning_not_found_skipping next_input]))
        | Some _ =>
            match convert_bin_to_fbin (path_join input_dir next_input)
                    (path_join output_dir next_output) next_dtype w2 with
            | (Return _, w3) =>
                main_loop input_dir output_dir later
                  (World (files w3) (stdout w3 ++ [Blank]))
            | (Raise e, w3) =>
                (Raise (SystemExit 1),
                 World (files w3)
                   (stdout w3 ++ [Error_converting next_input e]))
            end
        end
    end in
  main_loop input_dir output_dir
    ((input_name, output_name, dtype) :: rest) w1 = continued /\
  (forall (earlier : list (string * string * string)) (w : world),
     main_loop input_dir output_dir earlier w = (Return tt, w1) ->
     main_loop input_dir output_dir
       (earlier ++ (input_name, output_name, dtype) :: rest) w = continued) /\
  exists suffix : list line,
    stdout (snd continued) =
    stdout w1 ++ Warning_not_found_skipping input_name :: suffix.
Proof.
  intros Habsent w2 continued.
  assert (Hhead : main_loop input_dir output_dir
                    ((input_name, output_name, dtype) :: rest) w1 = continued).
  { rewrite main_loop_cons, Habsent. fold w2. subst continued.
    destruct rest as [|[[next_input next_output] next_dtype] later];
      [reflexivity|].
    rewrite main_loop_cons. change (files w2) with (files w1).
    destruct (files w1 !! path_join input_dir next_input); [|reflexivity].
    destruct (convert_bin_to_fbin _ _ _ w2) as [[[]|e] w3] eqn:Hconv;
      [reflexivity|].
    rewrite (convert_raises_Exception _ _ _ _ _ _ Hconv). reflexivity. }
  split; [exact Hhead|]. split.
  - intros earlier w Hearlier.
    rewrite (main_loop_app _ _ _ _ _ _ Hearlier). exact Hhead.
  - rewrite <- Hhead, main_loop_cons, Habsent. fold w2.
    destruct (main_loop input_dir output_dir rest w2) as [r w'] eqn:Hrun.
    destruct (main_loop_stdout_grows _ _ _ _ _ _ Hrun) as [suffix Hs].
    exists suffix. cbn [snd]. rewrite Hs. subst w2. cbn [stdout].
    rewrite <- app_assoc. reflexivity.
Qed.

(** C6.  When the conversion of a manifest entry whose source file
    exists raises an error, the loop prints the error with the name of
    that entry and exits with status 1 at once: the outcome does not
    depend on the later entries, and every file other than the output
    file of the failing entry is as the earlier entries left it. *)
Theorem main_loop_aborts_on_error (input_dir output_dir : string)
    (earlier rest : list (string * string * string))
    (input_name output_name dtype : string) (w w1 w2 : world) (e : exn) :
  main_loop input_dir output_dir earlier w = (Return tt, w1) ->
  is_Some (files w1 !! path_join input_dir input_name) ->
  convert_bin_to_fbin (path_join input_dir input_name)
    (path_join output_dir output_name) dtype w1 = (Raise e, w2) ->
  main_loop input_dir output_dir
    (earlier ++ (input_name, output_name, dtype) :: rest) w =
    (Raise (SystemExit 1),
     World (files w2) (stdout w2 ++ [Error_converting input_name e])) /\
  forall p : string,
    p <> path_join output_dir output_name ->
    files w2 !! p = files w1 !! p.
Proof.
  intros Hdone [c Hc] Hconv. split.
  - rewrite (main_loop_app _ _ _ _ _ _ Hdone), main_loop_cons, Hc, Hconv.
    rewrite (convert_raises_Exception _ _ _ _ _ _ Hconv). reflexivity.
  - intros p Hp. eapply convert_other_files; eassumption.
Qed.

End Facts.

Lemma header_round_trip_int32_witness :
  exists (dim cnt : Z) (header : list byte),
    decode_internal (le32 2 ++ le32 3) = inr (dim, cnt) /\
    encode_standard dim cnt = inr header /\
    length header = 8%nat /\
    le_decode (take 4 header) = 3 /\
    le_decode (drop 4 header) = 2.
Proof.
  apply (header_round_trip_int32 2 3); lia.
Defined.

(** C1 as stated fails at the unsigned pair (2^31, 0): the first word is
    decoded as -2^31, which the encoder refuses. *)
Lemma header_round_trip_fails_at_2_31 :
  0 <= 2 ^ 31 < 2 ^ 32 /\ 0 <= 0 < 2 ^ 32 /\
  decode_internal (le32 (2 ^ 31) ++ le32 0) = inr (- 2 ^ 31, 0) /\
  encode_standard (- 2 ^ 31) 0 = inl argument_out_of_range.
Proof.
  repeat split; try lia; reflexivity.
Qed.

Lemma encode_standard_range_check_witness :
  encode_standard 2 3 = inr (le32 3 ++ le32 2) /\
  encode_standard 2 (2 ^ 32) = inl argument_out_of_range /\
  encode_standard (-1) 0 = inl argument_out_of_range.
Proof.
  split; [|split].
  - apply (proj1 (encode_standard_range_check 2 3)). lia.
  - apply (proj2 (encode_standard_range_check 2 (2 ^ 32))). lia.
  - apply (proj2 (encode_standard_range_check (-1) 0)). lia.
Defined.

Lemma convert_preserves_payload_witness :
  exists (w' : world) (out : list byte),
    convert_bin_to_fbin "in" "out" "f"
      (World {[ "in"%string := le32 2 ++ le32 3 ++ repeat x01 24 ]} []) =
      (Return tt, w') /\
    files w' !! "out"%string = Some out /\
    take 8 out = le32 3 ++ le32 2 /\
    drop 8 out = repeat x01 24 /\
    forall p : string, p <> "out"%string ->
      files w' !! p =
      files (World {[ "in"%string := le32 2 ++ le32 3 ++ repeat x01 24 ]} []) !! p.
Proof.
  apply (convert_preserves_payload "in" "out" "f"
           (World {[ "in"%string := le32 2 ++ le32 3 ++ repeat x01 24 ]} [])
           2 3 (repeat x01 24)); [lia|lia|reflexivity|reflexivity].
Defined.

(** C2 as stated fails on the well-formed file with the unsigned words
    (2^31, 0) and the empty payload: the call raises and leaves four
    bytes in the output file. *)
Lemma convert_fails_on_word_2_31 :
  0 <= 2 ^ 31 < 2 ^ 32 /\ 0 <= 0 < 2 ^ 32 /\
  Z.of_nat (length (@nil byte)) = 2 ^ 31 * 0 * 4 /\
  let w := World {[ "in"%string := le32 (2 ^ 31) ++ le32 0 ++ [] ]} [] in
  fst (convert_bin_to_fbin "in" "out" "f" w) =
    Raise (struct_error argument_out_of_range) /\
  files (snd (convert_bin_to_fbin "in" "out" "f" w)) !! "out"%string =
    Some (le32 0).
Proof.
  split; [lia|]. split; [lia|]. split; [reflexivity|].
  split; vm_compute; reflexivity.
Qed.



Lemma size_mismatch_writes_nothing_witness :
  files (snd (convert_bin_to_fbin "in" "out" "f"
           (World {[ "in"%string := le32 4 ++ le32 1 ++ repeat x01 12 ]} []))) =
  files (World {[ "in"%string := le32 4 ++ le32 1 ++ repeat x01 12 ]} []).
Proof.
  apply (size_mismatch_writes_nothing "in" "out" "f" _ _ 16 12).
  vm_compute. reflexivity.
Defined.

Lemma negative_header_word_raises_witness :
  exists dim count : Z,
    decode_internal (le32 (2 ^ 32 - 1) ++ le32 (2 ^ 32 - 1) ++ repeat x01 4) =
      inr (dim, count) /\
    (2 ^ 31 <=
       le_decode (take 4 (le32 (2 ^ 32 - 1) ++ le32 (2 ^ 32 - 1) ++ repeat x01 4)) ->
     dim =
       le_decode (take 4 (le32 (2 ^ 32 - 1) ++ le32 (2 ^ 32 - 1) ++ repeat x01 4))
       - 2 ^ 32 /\ dim < 0) /\
    (2 ^ 31 <=
       le_decode (take 4 (drop 4
         (le32 (2 ^ 32 - 1) ++ le32 (2 ^ 32 - 1) ++ repeat x01 4))) ->
     count =
       le_decode (take 4 (drop 4
         (le32 (2 ^ 32 - 1) ++ le32 (2 ^ 32 - 1) ++ repeat x01 4)))
       - 2 ^ 32 /\ count < 0) /\
    exists (e : exn) (w' : world),
      convert_bin_to_fbin "in" "out" "f"
        (World {[ "in"%string :=
                    le32 (2 ^ 32 - 1) ++ le32 (2 ^ 32 - 1) ++ repeat x01 4 ]} []) =
        (Raise e, w').
Proof.
  apply (negative_header_word_raises "in" "out" "f"
           (World {[ "in"%string :=
                       le32 (2 ^ 32 - 1) ++ le32 (2 ^ 32 - 1) ++ repeat x01 4 ]} [])
           (le32 (2 ^ 32 - 1) ++ le32 (2 ^ 32 - 1) ++ repeat x01 4));
    [reflexivity|simpl; lia|left; vm_compute; discriminate].
Defined.

Lemma empty_payload_converts_witness :
  exists w' : world,
    convert_bin_to_fbin "in" "out" "q"
      (World {[ "in"%string := le32 0 ++ le32 5 ]} []) = (Return tt, w') /\
    files w' =
      <[ "out"%string := drop 4 (le32 0 ++ le32 5) ++ take 4 (le32 0 ++ le32 5) ]>
        (files (World {[ "in"%string := le32 0 ++ le32 5 ]} [])) /\
    length (drop 4 (le32 0 ++ le32 5) ++ take 4 (le32 0 ++ le32 5)) = 8%nat.
Proof.
  apply (empty_payload_converts "in" "out" "q"
           (World {[ "in"%string := le32 0 ++ le32 5 ]} [])
           (le32 0 ++ le32 5) 0 5);
    [reflexivity|reflexivity|reflexivity|lia|lia|lia].
Defined.

(** *** The three scenarios of the specification, evaluated *)

Example scenario_1 :
  let payload := concat (repeat [x00; x00; x80; x3f] 6) in
  let w := World {[ "in"%string := le32 2 ++ le32 3 ++ payload ]} [] in
  fst (convert_bin_to_fbin "in" "out" "f" w) = Return tt /\
  files (snd (convert_bin_to_fbin "in" "out" "f" w)) !! "out"%string =
    Some (le32 3 ++ le32 2 ++ payload) /\
  length (le32 3 ++ le32 2 ++ payload) = 32%nat.
Proof. vm_compute. repeat split. Qed.

Example scenario_2 :
  let w := World {[ "in"%string := le32 4 ++ le32 1 ++ repeat x00 12 ]} [] in
  fst (convert_bin_to_fbin "in" "out" "f" w) =
    Raise (ValueError_data_size_mismatch 16 12) /\
  files (snd (convert_bin_to_fbin "in" "out" "f" w)) !! "out"%string = None.
Proof. vm_compute. repeat split. Qed.

Example scenario_3 :
  let w := World {[ "in"%string := le32 10 ++ le32 5 ++ repeat x07 400 ]} [] in
  fst (convert_bin_to_fbin "in" "out" "q" w) = Return tt /\
  files (snd (convert_bin_to_fbin "in" "out" "q" w)) !! "out"%string =
    Some (le32 5 ++ le32 10 ++ repeat x07 400).
Proof. vm_compute. repeat split. Qed.

(** *** Headers that announce more than a read can ask for *)

(** An announced size above the largest size of the interpreter:
    the read raises before any byte is compared. *)
Example announced_size_above_size_type :
  let h := le32 (2 ^ 31 - 1) ++ le32 (2 ^ 31 - 1) in
  let w := World {[ "in"%string := h ]} [] in
  PY_SSIZE_T_MAX < (2 ^ 31 - 1) * (2 ^ 31 - 1) * 8 /\
  fst (convert_bin_to_fbin "in" "out" "q" w) = Raise OverflowError /\
  files (snd (convert_bin_to_fbin "in" "out" "q" w)) = files w.
Proof. vm_compute. repeat split. Qed.

(** An announced size that fits the size type and not the memory. *)
Example announced_size_above_memory :
  let h := le32 (2 ^ 20) ++ le32 (2 ^ 20) in
  let w := World {[ "in"%string := h ]} [] in
  memory < 2 ^ 20 * 2 ^ 20 * 4 <= PY_SSIZE_T_MAX /\
  fst (convert_bin_to_fbin "in" "out" "f" w) = Raise MemoryError /\
  files (snd (convert_bin_to_fbin "in" "out" "f" w)) = files w.
Proof.
  vm_compute. split; [split; [reflexivity|discriminate]|].
  split; reflexivity.
Qed.

(** A negative announced size below the smallest value of the size
    type. *)
Example announced_size_below_size_type :
  let h := le32 (2 ^ 31) ++ le32 (2 ^ 31 - 1) in
  let w := World {[ "in"%string := h ]} [] in
  decode_internal h = inr (- 2 ^ 31, 2 ^ 31 - 1) /\
  fst (convert_bin_to_fbin "in" "out" "q" w) = Raise OverflowError /\
  files (snd (convert_bin_to_fbin "in" "out" "q" w)) = files w.
Proof. vm_compute. repeat split. Qed.

Lemma main_loop_skips_missing_witness :
  let start :=
    World {[ "d/a.bin"%string := le32 1 ++ le32 1 ++ repeat x01 4;
             "d/c.bin"%string := le32 1 ++ le32 2 ++ repeat x02 8 ]} [] in
  let w1 := snd (main_loop "d" "o" [("a.bin", "a.fbin", "f")] start) in
  let w2 := World (files w1) (stdout w1 ++ [Warning_not_found_skipping "b.bin"]) in
  let continued : result unit * world :=
    match convert_bin_to_fbin (path_join "d" "c.bin") (path_join "o" "c.fbin")
            "f" w2 with
    | (Return _, w3) =>
        main_loop "d" "o" [("e.bin", "e.fbin", "f")]
          (World (files w3) (stdout w3 ++ [Blank]))
    | (Raise e, w3) =>
        (Raise (SystemExit 1),
         World (files w3) (stdout w3 ++ [Error_converting "c.bin" e]))
    end in
  main_loop "d" "o"
    ([("a.bin", "a.fbin", "f")] ++ ("b.bin", "b.fbin", "f")
       :: [("c.bin", "c.fbin", "f"); ("e.bin", "e.fbin", "f")]) start =
    continued /\
  fst continued = Return tt /\
  files (snd continued) !! "o/c.fbin"%string =
    Some (le32 2 ++ le32 1 ++ repeat x02 8) /\
  stdout (snd continued) =
    stdout w1 ++
    [ Warning_not_found_skipping "b.bin";
      Converting "d/c.bin" "o/c.fbin"; Input_format 1 2; Output_format 2 1;
      Conversion_successful; Blank;
      Warning_not_found_skipping "e.bin" ].
Proof.
  intros start w1 w2 continued.
  destruct (main_loop_skips_missing "d" "o"
              [("c.bin", "c.fbin", "f"); ("e.bin", "e.fbin", "f")]
              "b.bin" "b.fbin" "f" w1) as (_ & Hany & _).
  { vm_compute. reflexivity. }
  split.
  - apply (Hany [("a.bin", "a.fbin", "f")] start). vm_compute. reflexivity.
  - vm_compute. repeat split.
Defined.

Lemma main_loop_aborts_on_error_witness :
  let w := World {[ "d/a.bin"%string := le32 1 ++ le32 1 ++ repeat x01 4;
                    "d/b.bin"%string := le32 4 ++ le32 1 ++ repeat x01 12;
                    "d/c.bin"%string := le32 1 ++ le32 1 ++ repeat x01 8 ]} [] in
  let w1 := snd (main_loop "d" "o" [("a.bin", "a.fbin", "f")] w) in
  let w2 := snd (convert_bin_to_fbin "d/b.bin" "o/b.fbin" "f" w1) in
  main_loop "d" "o"
    ([("a.bin", "a.fbin", "f")] ++ ("b.bin", "b.fbin", "f") :: [("c.bin", "c.ibin", "q")])
    w =
    (Raise (SystemExit 1),
     World (files w2)
       (stdout w2 ++ [Error_converting "b.bin" (ValueError_data_size_mismatch 16 12)])) /\
  forall p : string,
    p <> path_join "o" "b.fbin" -> files w2 !! p = files w1 !! p.
Proof.
  intros w w1 w2.
  apply (main_loop_aborts_on_error "d" "o"
           [("a.bin", "a.fbin", "f")] [("c.bin", "c.ibin", "q")]
           "b.bin" "b.fbin" "f" w w1 w2
           (ValueError_data_size_mismatch 16 12)).
  - vm_compute. reflexivity.
  - vm_compute. eexists. reflexivity.
  - vm_compute. reflexivity.
Defined.

End ConvertFacts.

(** ** The summary *)

Module SummaryFacts.

Import AnalyzeCagraResults.

Section Summary.

Context {float : Type} (zero : float)
  (format_fixed : nat -> number float -> string) (repr : float -> string).

Implicit Types (r x : result float) (l results : list (result float)).

Lemma insert_perm r l : Permutation (r :: l) (insert r l).
Proof.
  induction l as [|x l IH]; cbn [insert].
  - reflexivity.
  - destruct (threads r <=? threads x); [reflexivity|].
    rewrite perm_swap. apply perm_skip, IH.
Qed.

Lemma sort_perm l : Permutation l (sort l).
Proof.
  induction l as [|r l IH]; cbn [sort fold_right].
  - reflexivity.
  - rewrite <- insert_perm. apply perm_skip, IH.
Qed.

Lemma insert_sorted r l :
  StronglySorted by_threads l -> StronglySorted by_threads (insert r l).
Proof.
  induction 1 as [|x l Hl IH Hx]; cbn [insert].
  - repeat constructor.
  - destruct (threads r <=? threads x) eqn:E.
    + apply Z.leb_le in E. constructor; [constructor; assumption|].
      constructor; [exact E|].
      eapply Forall_impl; [exact Hx|].
      unfold by_threads. intros y Hy. lia.
    + apply Z.leb_gt in E. constructor; [exact IH|].
      eapply Permutation_Forall; [apply insert_perm|].
      constructor; [unfold by_threads; lia|exact Hx].
Qed.

Lemma sort_sorted l : StronglySorted by_threads (sort l).
Proof.
  induction l as [|r l IH]; cbn [sort fold_right].
  - constructor.
  - apply insert_sorted, IH.
Qed.

(** Stability: records with the same key keep their relative order. *)
Lemma insert_stable (k : Z) r l :
  List.filter (fun y => threads y =? k) (insert r l) =
  List.filter (fun y => threads y =? k) (r :: l).
Proof.
  induction l as [|x l IH]; cbn [insert].
  - reflexivity.
  - destruct (threads r <=? threads x) eqn:E; [reflexivity|].
    apply Z.leb_gt in E. cbn [List.filter] in *. rewrite IH.
    destruct (threads x =? k) eqn:Ex, (threads r =? k) eqn:Er;
      try reflexivity.
    apply Z.eqb_eq in Ex, Er. lia.
Qed.

Lemma sort_stable (k : Z) l :
  List.filter (fun y => threads y =? k) (sort l) =
  List.filter (fun y => threads y =? k) l.
Proof.
  induction l as [|r l IH]; cbn [sort fold_right].
  - reflexivity.
  - fold (sort l). rewrite insert_stable. cbn [List.filter].
    rewrite IH. reflexivity.
Qed.


(** C8.  For every non-empty list of parsed records the summary returns
    normally.  The records are put in ascending order of [threads] (a
    rearrangement of the input that keeps records with equal keys in
    their order).  What is printed starts with the table header, the
    rule and one table row per record in that order, each row holding
    the threads, the qps, the recall, the latency and the total queries
    of its record (0.0, 0.0, 0.0 and 0 for a record without counters),
    and no table row comes after them.  The CSV text is the header line
    with the columns Concurrency, QPS, Recall, Latency_ms, Total_Queries
    followed by one line per record in the same order, made of the same
    five values separated by commas: the threads in decimal, the qps
    with 2 decimals, the recall with 4, the latency with 3, and the
    total queries as they are. *)
Theorem summary_sorted_csv (results_dir : string) results :
  results <> [] ->
  let decimal := fun n : Z => NilZero.string_of_int (Z.to_int n) in
  let end_of_line := String (ascii_of_nat 10) EmptyString in
  let counter :=
    fun (key : counters float -> number float) (default : number float)
        (r : result float) =>
      match custom r with
      | Some c => key c
      | None => default
      end in
  let csv_line := fun r : result float =>
    (decimal (threads r) ++ ","
     ++ format_fixed 2 (counter qps (Float zero) r) ++ ","
     ++ format_fixed 4 (counter recall (Float zero) r) ++ ","
     ++ format_fixed 3 (counter latency (Float zero) r) ++ ","
     ++ match counter total_queries (Int 0) r with
        | Int n => decimal n
        | Float x => repr x
        end
     ++ end_of_line)%string in
  let table_line := fun r : result float =>
    Table_row (threads r) (counter qps (Float zero) r)
      (counter recall (Float zero) r) (counter latency (Float zero) r)
      (counter total_queries (Int 0) r) in
  exists (sorted : list (result float)) (tail : list (line float)),
    summarize zero format_fixed repr results_dir results =
      Done ([Table_header; Dashes] ++ map table_line sorted ++ Blank :: tail)
        (results_dir ++ "/summary.csv")
        (String.concat ","
           ["Concurrency"; "QPS"; "Recall"; "Latency_ms"; "Total_Queries"]
         ++ end_of_line
         ++ String.concat "" (map csv_line sorted)) /\
    Forall (fun later : line float =>
              match later with
              | Table_row _ _ _ _ _ => False
              | _ => True
              end) tail /\
    Permutation results sorted /\
    StronglySorted (fun a b => threads a <= threads b) sorted /\
    (forall k : Z,
       List.filter (fun y => threads y =? k) sorted =
       List.filter (fun y => threads y =? k) results).
Proof.
  intros Hne decimal end_of_line counter csv_line table_line.
  destruct results as [|r0 l0]; [contradiction|].
  exists (sort (r0 :: l0)).
  exists ([Equals; Search_parameters] ++
          match sort (r0 :: l0) with
          | [] => []
          | r :: _ =>
              [ Param_k;
                Param_itopk_size (get_or_NA itopk r);
                Param_search_width (get_or_NA search_width r);
                Param_refine_ratio (get_or_NA refine_ratio r) ]
          end ++
          [Blank; Summary_saved_to (results_dir ++ "/summary.csv"); Blank]).
  split.
  - unfold summarize. cbv zeta. f_equal.
    rewrite <- !app_assoc. reflexivity.
  - split.
    + destruct (sort (r0 :: l0)); repeat constructor.
    + split; [apply sort_perm|]. split; [apply sort_sorted|].
      intros k. apply sort_stable.
Qed.

End Summary.

Lemma summary_sorted_csv_witness :
  let results : list (result Z) :=
    [ Result "b" 4 (Int 1) (Float 0) (Float 0) "ms"
        (Some (Counters (Float 9) (Float 200) (Float 50) (Float 3) (Float 0)
                 (Float 64) (Int 1) (Float 2)));
      Result "a" 1 (Int 1) (Float 0) (Float 0) "ms" None ] in
  exists (sorted : list (result Z)) (tail : list (line Z)),
    summarize 0 (fun _ v => str_number str v) str "out" results =
      Done ([Table_header; Dashes] ++ map (table_row 0) sorted ++ Blank :: tail)
        "out/summary.csv"
        (csv_header ++
         String.concat ""
           (map (csv_row 0 (fun _ v => str_number str v) str) sorted)) /\
    Permutation results sorted /\
    StronglySorted by_threads sorted.
Proof.
  intros results.
  destruct (summary_sorted_csv 0 (fun _ v => str_number str v) str "out" results)
    as (sorted & tail & Hrun & _ & Hperm & Hsorted & _).
  { discriminate. }
  exists sorted, tail. split; [exact Hrun|]. split; [exact Hperm|exact Hsorted].
Defined.

End SummaryFacts.

(** ** More on one conversion *)

Module ConvertMore.

Import Struct StructFacts ConvertDataset ConvertFacts.

Section Facts.

Context {platform : Platform}.

Lemma pack_I_error (v : Z) (e : Struct.error) :
  pack_I v = inl e -> e = argument_out_of_range.
Proof.
  unfold pack_I. destruct (_ && _); [discriminate|]. intros [= <-]. reflexivity.
Qed.

Lemma decode_internal_short (c : list byte) :
  (length c < 8)%nat -> decode_internal c = inl unpack_requires_4_bytes.
Proof.
  intros Hlen. unfold decode_internal, unpack_i.
  rewrite !length_take, length_drop.
  destruct (4 `min` length c =? 4)%nat eqn:E1; [|reflexivity].
  apply Nat.eqb_eq in E1.
  destruct (4 `min` (length c - 4) =? 4)%nat eqn:E2; [|reflexivity].
  apply Nat.eqb_eq in E2. lia.
Qed.

Lemma decode_internal_long (c : list byte) :
  (8 <= length c)%nat -> exists dim count : Z, decode_internal c = inr (dim, count).
Proof.
  intros Hlen. unfold decode_internal, unpack_i.
  rewrite !length_take, length_drop.
  replace (4 `min` length c)%nat with 4%nat by lia.
  replace (4 `min` (length c - 4))%nat with 4%nat by lia.
  cbn [Nat.eqb]. eauto.
Qed.

(** The run of a call on a file that starts with the words of a
    dimension and a count below 2^31 and holds at least the payload the
    header announces. *)
Lemma convert_long_enough
    (input_file output_file data_type : string) (w : world)
    (dimension count : Z) (P extra : list byte) :
  0 <= dimension < 2 ^ 31 ->
  0 <= count < 2 ^ 31 ->
  files w !! input_file = Some (le32 dimension ++ le32 count ++ P ++ extra) ->
  Z.of_nat (length P) =
    dimension * count * (if String.eqb data_type "f" then 4 else 8) ->
  convert_bin_to_fbin input_file output_file data_type w =
    (Return tt,
     World (<[output_file := le32 count ++ le32 dimension ++ P]> (files w))
       (stdout w ++ [Converting input_file output_file;
                     Input_format dimension count;
                     Output_format count dimension;
                     Conversion_successful])).
Proof.
  intros Hd Hc Hin Hlen.
  rewrite convert_bin_to_fbin_unfold, Hin, decode_internal_le32 by lia.
  cbv zeta.
  destruct (2 ^ 31 <=? dimension) eqn:E1; [lia|].
  destruct (2 ^ 31 <=? count) eqn:E2; [lia|].
  rewrite data_size_not_minus_1, <- Hlen.
  change (drop 8 (le32 dimension ++ le32 count ++ P ++ extra))
    with (P ++ extra).
  rewrite read_error_fits by (rewrite length_app; lia).
  rewrite Nat2Z.id, take_app_length, Z.eqb_refl.
  rewrite !pack_I_inr by lia.
  rewrite <- !app_assoc. reflexivity.
Qed.

(** X1.  When the input file does not exist the call raises
    [FileNotFoundError] for that path, after the "Converting" line and
    without touching any file. *)
Theorem convert_missing_input
    (input_file output_file data_type : string) (w : world) :
  files w !! input_file = None ->
  convert_bin_to_fbin input_file output_file data_type w =
    (Raise (FileNotFoundError input_file),
     World (files w) (stdout w ++ [Converting input_file output_file])).
Proof.
  intros Hin. rewrite convert_bin_to_fbin_unfold, Hin. reflexivity.
Qed.

(** X2.  On an existing input file the call fails with the [struct.error]
    of [unpack] exactly when the file has fewer than eight bytes, and
    then no file is changed. *)
Theorem convert_short_header
    (input_file output_file data_type : string) (w : world) (c : list byte) :
  files w !! input_file = Some c ->
  (fst (convert_bin_to_fbin input_file output_file data_type w) =
     Raise (struct_error unpack_requires_4_bytes) <->
   (length c < 8)%nat) /\
  ((length c < 8)%nat ->
   files (snd (convert_bin_to_fbin input_file output_file data_type w)) =
   files w).
Proof.
  intros Hin. rewrite convert_bin_to_fbin_unfold, Hin. cbv zeta.
  destruct (Nat.lt_ge_cases (length c) 8) as [Hlt|Hge].
  - rewrite (decode_internal_short c Hlt). cbn [fst snd files]. tauto.
  - destruct (decode_internal_long c Hge) as (dim & count & ->).
    split; [|lia]. split; [|lia]. intros H. exfalso. revert H.
    destruct (read_error _ _) as [e'|] eqn:Hr.
    { cbn [fst]. intros [= ->].
      exact (read_error_not_struct _ _ _ _ Hr eq_refl). }
    destruct (_ =? _); [|discriminate].
    destruct (pack_I count) as [e|b1] eqn:E1;
      [apply pack_I_error in E1 as ->; discriminate|].
    destruct (pack_I dim) as [e|b2] eqn:E2;
      [apply pack_I_error in E2 as ->; discriminate|].
    discriminate.
Qed.

(** X3.  Bytes after the announced payload are ignored: on a file that
    holds the words of a dimension and a count below 2^31, a payload P
    of dimension * count * element_size bytes and any further bytes, the
    call returns normally and the output is the transposed header
    followed by P alone. *)
Theorem convert_ignores_trailing_bytes
    (input_file output_file data_type : string) (w : world)
    (dimension count : Z) (P extra : list byte) :
  0 <= dimension < 2 ^ 31 ->
  0 <= count < 2 ^ 31 ->
  files w !! input_file = Some (le32 dimension ++ le32 count ++ P ++ extra) ->
  Z.of_nat (length P) =
    dimension * count * (if String.eqb data_type "f" then 4 else 8) ->
  exists w' : world,
    convert_bin_to_fbin input_file output_file data_type w = (Return tt, w') /\
    files w' !! output_file = Some (le32 count ++ le32 dimension ++ P).
Proof.
  intros Hd Hc Hin Hlen. eexists. split.
  - apply (convert_long_enough _ _ _ _ _ _ _ extra Hd Hc Hin Hlen).
  - cbn [files]. apply lookup_insert_eq.
Qed.

(** X4.  Converting twice gives the original back: after a well-formed
    file is converted and the output is converted again with the same
    element type, the second output is byte for byte the first input. *)
Theorem convert_twice_restores
    (input_file middle_file output_file data_type : string) (w : world)
    (dimension count : Z) (P : list byte) :
  0 <= dimension < 2 ^ 31 ->
  0 <= count < 2 ^ 31 ->
  files w !! input_file = Some (le32 dimension ++ le32 count ++ P) ->
  Z.of_nat (length P) =
    dimension * count * (if String.eqb data_type "f" then 4 else 8) ->
  exists w1 w2 : world,
    convert_bin_to_fbin input_file middle_file data_type w = (Return tt, w1) /\
    convert_bin_to_fbin middle_file output_file data_type w1 = (Return tt, w2) /\
    files w2 !! output_file = Some (le32 dimension ++ le32 count ++ P).
Proof.
  intros Hd Hc Hin Hlen.
  rewrite <- (app_nil_r P) in Hin.
  pose proof (convert_long_enough _ middle_file _ _ _ _ _ [] Hd Hc Hin Hlen)
    as H1.
  eexists _, _. split; [exact H1|]. split.
  - apply (convert_long_enough _ _ _ _ count dimension P [] Hc Hd).
    + cbn [files]. rewrite app_nil_r. apply lookup_insert_eq.
    + rewrite Hlen. f_equal. apply Z.mul_comm.
  - cbn [files]. apply lookup_insert_eq.
Qed.

Lemma pack_I_value (v : Z) (b : list byte) :
  pack_I v = inr b -> 0 <= v < 2 ^ 32 /\ b = le32 v.
Proof.
  unfold pack_I. destruct (0 <=? v) eqn:E1; [|discriminate].
  destruct (v <=? 2 ^ 32 - 1) eqn:E2; [|discriminate].
  intros [= <-]. split; [lia|reflexivity].
Qed.

(** X5.  When the two decoded header values have opposite signs the
    size is negative and the call fails in [read], before the size
    comparison and without touching any file: with [ValueError] when
    the size fits the size type, with [OverflowError] when it is below
    it. *)
Theorem convert_negative_size
    (input_file output_file data_type : string) (w : world)
    (c : list byte) (dim count : Z) :
  files w !! input_file = Some c ->
  decode_internal c = inr (dim, count) ->
  dim * count < 0 ->
  convert_bin_to_fbin input_file output_file data_type w =
    (Raise
       (if dim * count * (if String.eqb data_type "f" then 4 else 8)
           <? - PY_SSIZE_T_MAX - 1
        then OverflowError else ValueError_read_length),
     World (files w)
       (stdout w ++ [Converting input_file output_file]
        ++ [Input_format dim count])).
Proof.
  intros Hin Hdec Hneg.
  rewrite convert_bin_to_fbin_unfold, Hin, Hdec. cbv zeta.
  set (data_size := dim * count * _).
  assert (Hs : data_size < -1)
    by (subst data_size; destruct (String.eqb data_type "f"); lia).
  rewrite (read_error_negative _ _ Hs), <- app_assoc. reflexivity.
Qed.

(** X6.  A call that returns normally had an input file of at least
    eight bytes whose two words decode to values in [0, 2^31 - 1] and
    which holds at least dim * count * element_size bytes after the
    header; the output file is then the second input word, the first
    input word and that many payload bytes, 8 + dim * count *
    element_size bytes in all. *)
Theorem convert_success_inversion
    (input_file output_file data_type : string) (w w' : world) :
  convert_bin_to_fbin input_file output_file data_type w = (Return tt, w') ->
  exists (c : list byte) (dim count : Z),
    files w !! input_file = Some c /\
    decode_internal c = inr (dim, count) /\
    0 <= dim < 2 ^ 31 /\ 0 <= count < 2 ^ 31 /\
    let data_size :=
      dim * count * (if String.eqb data_type "f" then 4 else 8) in
    let out :=
      take 4 (drop 4 c) ++ take 4 c ++ take (Z.to_nat data_size) (drop 8 c) in
    data_size <= Z.of_nat (length (drop 8 c)) /\
    files w' = <[output_file := out]> (files w) /\
    Z.of_nat (length out) = 8 + data_size.
Proof.
  rewrite convert_bin_to_fbin_unfold. cbv zeta.
  destruct (files w !! input_file) as [c|] eqn:Hin; [|discriminate].
  destruct (decode_internal c) as [?|[dim count]] eqn:Hdec; [discriminate|].
  rewrite data_size_not_minus_1.
  set (data_size := dim * count * _).
  destruct (read_error _ _) eqn:E1; [discriminate|].
  destruct (_ =? data_size) eqn:E2; [|discriminate].
  destruct (pack_I count) as [?|b1] eqn:Hb1; [discriminate|].
  destruct (pack_I dim) as [?|b2] eqn:Hb2; [discriminate|].
  intros [= <-].
  destruct (decode_internal_inr _ _ _ Hdec) as [U1 U2].
  pose proof (unpack_i_range _ _ U1) as R1.
  pose proof (unpack_i_range _ _ U2) as R2.
  destruct (pack_I_value _ _ Hb1) as [Rc _].
  destruct (pack_I_value _ _ Hb2) as [Rd _].
  pose proof (pack_I_unpack_i _ _ U1 ltac:(lia)) as P1.
  pose proof (pack_I_unpack_i _ _ U2 ltac:(lia)) as P2.
  assert (b1 = take 4 (drop 4 c)) as -> by congruence.
  assert (b2 = take 4 c) as -> by congruence.
  apply unpack_i_inr in U1 as [L1 _], U2 as [L2 _].
  apply Z.eqb_eq in E2. rewrite length_take in E2.
  exists c, dim, count. cbv zeta. fold data_size.
  split; [reflexivity|]. split; [exact Hdec|].
  split; [lia|]. split; [lia|]. split; [lia|]. split; [reflexivity|].
  rewrite !length_app, L1, L2, length_take. lia.
Qed.

Lemma decode_internal_error (c : list byte) (e : Struct.error) :
  decode_internal c = inl e -> e = unpack_requires_4_bytes.
Proof.
  unfold decode_internal, unpack_i.
  repeat match goal with
         | |- context [if ?b then _ else _] => destruct b
         end; intros [= <-]; reflexivity.
Qed.

(** X7.  A call that raises anything but the out-of-range error of
    [struct.pack] leaves every file as it was.  When it raises that
    error, the output file has already been created or truncated: it is
    empty when the count is negative, and holds exactly the four bytes
    of the count when the count was written and the dimension is
    negative.  No other file is changed, and the output never holds a
    whole header or any payload. *)
Theorem convert_failure_partial_output
    (input_file output_file data_type : string) (w w' : world) (e : exn) :
  convert_bin_to_fbin input_file output_file data_type w = (Raise e, w') ->
  (e <> struct_error argument_out_of_range -> files w' = files w) /\
  (e = struct_error argument_out_of_range ->
   exists (c : list byte) (dim count : Z),
     files w !! input_file = Some c /\
     decode_internal c = inr (dim, count) /\
     ((count < 0 /\ files w' = <[output_file := []]> (files w)) \/
      (0 <= count /\ dim < 0 /\
       files w' = <[output_file := le32 count]> (files w)))).
Proof.
  rewrite convert_bin_to_fbin_unfold. cbv zeta.
  destruct (files w !! input_file) as [c|] eqn:Hin;
    [|intros [= <- <-]; split; [reflexivity|discriminate]].
  destruct (decode_internal c) as [e0|[dim count]] eqn:Hdec.
  { intros [= <- <-]. split; [reflexivity|].
    apply decode_internal_error in Hdec as ->. discriminate. }
  destruct (read_error _ _) as [e'|] eqn:Hr.
  { intros [= <- <-]. split; [reflexivity|]. intros ->.
    destruct (read_error_not_struct _ _ _ _ Hr eq_refl). }
  destruct (_ =? _);
    [|intros [= <- <-]; split; [reflexivity|discriminate]].
  destruct (decode_internal_inr _ _ _ Hdec) as [U1 U2].
  pose proof (unpack_i_range _ _ U1) as R1.
  pose proof (unpack_i_range _ _ U2) as R2.
  destruct (pack_I count) as [e1|b1] eqn:Hb1.
  - intros [= <- <-]. apply pack_I_error in Hb1 as He. subst e1.
    split; [intros Hne; destruct (Hne eq_refl)|]. intros _.
    exists c, dim, count. split; [reflexivity|]. split; [exact Hdec|].
    left. split; [|reflexivity].
    destruct (Z_lt_le_dec count 0) as [Hlt|Hge]; [exact Hlt|].
    rewrite pack_I_inr in Hb1 by lia. discriminate.
  - destruct (pack_I dim) as [e2|b2] eqn:Hb2; [|discriminate].
    intros [= <- <-]. apply pack_I_error in Hb2 as He. subst e2.
    apply pack_I_value in Hb1 as [Rc ->].
    split; [intros Hne; destruct (Hne eq_refl)|]. intros _.
    exists c, dim, count. split; [reflexivity|]. split; [exact Hdec|].
    right. split; [lia|]. split; [|reflexivity].
    destruct (Z_lt_le_dec dim 0) as [Hlt|Hge]; [exact Hlt|].
    rewrite pack_I_inr in Hb2 by lia. discriminate.
Qed.

(** X8.  Only the type code ['f'] selects four-byte elements: with any
    other code the call does exactly what it does with ['q']. *)
Theorem convert_other_type_codes
    (input_file output_file data_type : string) (w : world) :
  data_type <> "f"%string ->
  convert_bin_to_fbin input_file output_file data_type w =
  convert_bin_to_fbin input_file output_file "q" w.
Proof.
  intros Hne. rewrite !convert_bin_to_fbin_unfold.
  apply String.eqb_neq in Hne. rewrite Hne. reflexivity.
Qed.

End Facts.

Lemma convert_missing_input_witness :
  convert_bin_to_fbin "in" "out" "f" (World ∅ []) =
    (Raise (FileNotFoundError "in"),
     World (files (World ∅ [])) (stdout (World ∅ []) ++ [Converting "in" "out"])).
Proof.
  apply (convert_missing_input "in" "out" "f" (World ∅ [])). reflexivity.
Defined.

Lemma convert_short_header_witness :
  (fst (convert_bin_to_fbin "in" "out" "f"
          (World {[ "in"%string := le32 7 ++ [x01; x02; x03] ]} [])) =
     Raise (struct_error unpack_requires_4_bytes) <->
   (length (le32 7 ++ [x01; x02; x03]) < 8)%nat) /\
  ((length (le32 7 ++ [x01; x02; x03]) < 8)%nat ->
   files (snd (convert_bin_to_fbin "in" "out" "f"
                 (World {[ "in"%string := le32 7 ++ [x01; x02; x03] ]} []))) =
   files (World {[ "in"%string := le32 7 ++ [x01; x02; x03] ]} [])).
Proof.
  apply (convert_short_header "in" "out" "f"
           (World {[ "in"%string := le32 7 ++ [x01; x02; x03] ]} [])
           (le32 7 ++ [x01; x02; x03])).
  reflexivity.
Defined.

Lemma convert_ignores_trailing_bytes_witness :
  exists w' : world,
    convert_bin_to_fbin "in" "out" "q"
      (World {[ "in"%string :=
                  le32 1 ++ le32 2 ++ repeat x05 16 ++ [x09; x09; x09] ]} []) =
      (Return tt, w') /\
    files w' !! "out"%string = Some (le32 2 ++ le32 1 ++ repeat x05 16).
Proof.
  apply (convert_ignores_trailing_bytes "in" "out" "q"
           (World {[ "in"%string :=
                       le32 1 ++ le32 2 ++ repeat x05 16 ++ [x09; x09; x09] ]} [])
           1 2 (repeat x05 16) [x09; x09; x09]);
    [lia|lia|reflexivity|reflexivity].
Defined.

Lemma convert_twice_restores_witness :
  exists w1 w2 : world,
    convert_bin_to_fbin "a" "b" "f"
      (World {[ "a"%string := le32 2 ++ le32 3 ++ repeat x01 24 ]} []) =
      (Return tt, w1) /\
    convert_bin_to_fbin "b" "c" "f" w1 = (Return tt, w2) /\
    files w2 !! "c"%string = Some (le32 2 ++ le32 3 ++ repeat x01 24).
Proof.
  apply (convert_twice_restores "a" "b" "c" "f"
           (World {[ "a"%string := le32 2 ++ le32 3 ++ repeat x01 24 ]} [])
           2 3 (repeat x01 24)); [lia|lia|reflexivity|reflexivity].
Defined.

Lemma convert_negative_size_witness :
  convert_bin_to_fbin "in" "out" "f"
    (World {[ "in"%string := le32 (2 ^ 32 - 1) ++ le32 1 ++ repeat x01 4 ]} []) =
    (Raise
       (if -1 * 1 * (if String.eqb "f" "f" then 4 else 8)
           <? - PY_SSIZE_T_MAX - 1
        then OverflowError else ValueError_read_length),
     World (files (World {[ "in"%string :=
                              le32 (2 ^ 32 - 1) ++ le32 1 ++ repeat x01 4 ]} []))
       (stdout (World {[ "in"%string :=
                           le32 (2 ^ 32 - 1) ++ le32 1 ++ repeat x01 4 ]} [])
        ++ [Converting "in" "out"] ++ [Input_format (-1) 1])).
Proof.
  apply (convert_negative_size "in" "out" "f"
           (World {[ "in"%string :=
                       le32 (2 ^ 32 - 1) ++ le32 1 ++ repeat x01 4 ]} [])
           (le32 (2 ^ 32 - 1) ++ le32 1 ++ repeat x01 4) (-1) 1);
    [reflexivity|reflexivity|lia].
Defined.

Lemma convert_success_inversion_witness :
  exists (c : list byte) (dim count : Z),
    files (World {[ "in"%string := le32 2 ++ le32 3 ++ repeat x01 24 ]} [])
      !! "in"%string = Some c /\
    decode_internal c = inr (dim, count) /\
    0 <= dim < 2 ^ 31 /\ 0 <= count < 2 ^ 31 /\
    let data_size := dim * count * (if String.eqb "f" "f" then 4 else 8) in
    let out :=
      take 4 (drop 4 c) ++ take 4 c ++ take (Z.to_nat data_size) (drop 8 c) in
    data_size <= Z.of_nat (length (drop 8 c)) /\
    files (snd (convert_bin_to_fbin "in" "out" "f"
                  (World {[ "in"%string :=
                              le32 2 ++ le32 3 ++ repeat x01 24 ]} []))) =
      <[ "out"%string := out ]>
        (files (World {[ "in"%string := le32 2 ++ le32 3 ++ repeat x01 24 ]} [])) /\
    Z.of_nat (length out) = 8 + data_size.
Proof.
  apply (convert_success_inversion "in" "out" "f"
           (World {[ "in"%string := le32 2 ++ le32 3 ++ repeat x01 24 ]} [])).
  vm_compute. reflexivity.
Defined.

Lemma convert_failure_partial_output_witness :
  let w := World {[ "in"%string := le32 (2 ^ 31) ++ le32 0;
                    "out"%string := repeat x07 40 ]} [] in
  let w' := snd (convert_bin_to_fbin "in" "out" "f" w) in
  (struct_error argument_out_of_range <> struct_error argument_out_of_range ->
   files w' = files w) /\
  (struct_error argument_out_of_range = struct_error argument_out_of_range ->
   exists (c : list byte) (dim count : Z),
     files w !! "in"%string = Some c /\
     decode_internal c = inr (dim, count) /\
     ((count < 0 /\ files w' = <[ "out"%string := [] ]> (files w)) \/
      (0 <= count /\ dim < 0 /\
       files w' = <[ "out"%string := le32 count ]> (files w)))).
Proof.
  intros w w'.
  apply (convert_failure_partial_output "in" "out" "f" w w'
           (struct_error argument_out_of_range)).
  vm_compute. reflexivity.
Defined.

Lemma convert_other_type_codes_witness :
  convert_bin_to_fbin "in" "out" "d"
    (World {[ "in"%string := le32 1 ++ le32 1 ++ repeat x01 8 ]} []) =
  convert_bin_to_fbin "in" "out" "q"
    (World {[ "in"%string := le32 1 ++ le32 1 ++ repeat x01 8 ]} []).
Proof.
  apply (convert_other_type_codes "in" "out" "d"). discriminate.
Defined.

End ConvertMore.

(** ** More on the loop over the manifest *)

Module LoopMore.

Import Struct StructFacts ConvertDataset ConvertFacts.

Section Facts.

Context {platform : Platform}.

Lemma main_loop_other_files (input_dir output_dir : string)
    (cs : list (string * string * string)) (w w' : world)
    (r : result unit) (p : string) :
  main_loop input_dir output_dir cs w = (r, w') ->
  ~ In p (map (fun entry => path_join output_dir (snd (fst entry))) cs) ->
  files w' !! p = files w !! p.
Proof.
  revert w. induction cs as [|[[input_name output_name] dtype] cs IH];
    intros w Hrun Hp.
  - injection Hrun as _ <-. reflexivity.
  - rewrite main_loop_cons in Hrun. cbn [map In fst snd] in Hp.
    destruct (files w !! path_join input_dir input_name).
    + destruct (convert_bin_to_fbin _ _ _ w) as [[[]|e] w1] eqn:Hconv.
      * apply IH in Hrun; [|tauto]. cbn [files] in Hrun. rewrite Hrun.
        eapply convert_other_files; [exact Hconv|]. intros ->. tauto.
      * assert (files w1 !! p = files w !! p) as <-
          by (eapply convert_other_files; [exact Hconv|]; intros ->; tauto).
        destruct (is_Exception e); injection Hrun as _ <-; reflexivity.
    + apply IH in Hrun; [|tauto]. exact Hrun.
Qed.

Lemma convert_well_formed_bytes
    (input_file output_file data_type : string) (w : world)
    (c : list byte) (dim count : Z) :
  files w !! input_file = Some c ->
  decode_internal c = inr (dim, count) ->
  0 <= dim -> 0 <= count ->
  Z.of_nat (length (drop 8 c)) =
    dim * count * (if String.eqb data_type "f" then 4 else 8) ->
  exists out : list line,
    convert_bin_to_fbin input_file output_file data_type w =
      (Return tt,
       World (<[output_file := take 4 (drop 4 c) ++ take 4 c ++ drop 8 c]>
                (files w)) out).
Proof.
  intros Hin Hdec Hd Hc Hlen.
  rewrite convert_bin_to_fbin_unfold, Hin, Hdec. cbv zeta.
  apply decode_internal_inr in Hdec as [U1 U2].
  rewrite data_size_not_minus_1, <- Hlen, read_error_fits by lia.
  rewrite Nat2Z.id, firstn_all, Z.eqb_refl.
  rewrite (pack_I_unpack_i _ _ U2 Hc), (pack_I_unpack_i _ _ U1 Hd).
  eexists. reflexivity.
Qed.

(** X9.  Whatever the manifest and the files, the loop either runs to
    its end or exits with status 1: no other exception leaves it. *)
Theorem main_loop_exit_status (input_dir output_dir : string)
    (cs : list (string * string * string)) (w : world) :
  exists w' : world,
    main_loop input_dir output_dir cs w = (Return tt, w') \/
    main_loop input_dir output_dir cs w = (Raise (SystemExit 1), w').
Proof.
  revert w. induction cs as [|[[input_name output_name] dtype] cs IH];
    intros w.
  - eexists. left. reflexivity.
  - rewrite main_loop_cons.
    destruct (files w !! path_join input_dir input_name); [|apply IH].
    destruct (convert_bin_to_fbin _ _ _ w) as [[[]|e] w1] eqn:Hconv;
      [apply IH|].
    rewrite (convert_raises_Exception _ _ _ _ _ _ Hconv).
    eexists. right. reflexivity.
Qed.

(** X10.  The loop changes no file other than the output files of the
    manifest, whether it runs to its end or exits early. *)
Theorem main_loop_touches_only_outputs (input_dir output_dir : string)
    (cs : list (string * string * string)) (w : world) (p : string) :
  (forall input_name output_name dtype : string,
     In (input_name, output_name, dtype) cs ->
     p <> path_join output_dir output_name) ->
  files (snd (main_loop input_dir output_dir cs w)) !! p = files w !! p.
Proof.
  intros Hp.
  destruct (main_loop input_dir output_dir cs w) as [r w'] eqn:Hrun.
  eapply main_loop_other_files; [exact Hrun|].
  intros Hin. apply in_map_iff in Hin as ([[n o] d] & Heq & Hin).
  apply (Hp _ _ _ Hin). symmetry. exact Heq.
Qed.

(** X11.  When none of the source files of the manifest exists, the loop
    runs to its end, changes no file and prints one warning per entry,
    in the order of the manifest. *)
Theorem main_loop_all_missing (input_dir output_dir : string)
    (cs : list (string * string * string)) (w : world) :
  (forall input_name output_name dtype : string,
     In (input_name, output_name, dtype) cs ->
     files w !! path_join input_dir input_name = None) ->
  main_loop input_dir output_dir cs w =
    (Return tt,
     World (files w)
       (stdout w ++
        map (fun entry => Warning_not_found_skipping (fst (fst entry))) cs)).
Proof.
  revert w. induction cs as [|[[input_name output_name] dtype] cs IH];
    intros w Habs.
  - cbn [main_loop map]. rewrite app_nil_r. destruct w; reflexivity.
  - rewrite main_loop_cons, (Habs input_name output_name dtype) by (left; reflexivity).
    rewrite IH by (intros n o d Hin; apply (Habs n o d); right; exact Hin).
    cbn [files stdout map fst]. rewrite <- app_assoc. reflexivity.
Qed.

(** X12.  When every source file of the manifest exists and is well
    formed (its words decode to nonnegative values and its payload has
    exactly dim * count * element_size bytes), no output path is also an
    input path and the output paths are distinct, the loop runs to its
    end, leaves every source file as it was and leaves in every output
    file the source with its two header words exchanged. *)
Theorem main_loop_converts_all (input_dir output_dir : string)
    (cs : list (string * string * string)) (w : world) :
  (forall input_name output_name dtype : string,
     In (input_name, output_name, dtype) cs ->
     exists (c : list byte) (dim count : Z),
       files w !! path_join input_dir input_name = Some c /\
       decode_internal c = inr (dim, count) /\
       0 <= dim /\ 0 <= count /\
       Z.of_nat (length (drop 8 c)) =
         dim * count * (if String.eqb dtype "f" then 4 else 8)) ->
  (forall n1 o1 d1 n2 o2 d2 : string,
     In (n1, o1, d1) cs -> In (n2, o2, d2) cs ->
     path_join output_dir o1 <> path_join input_dir n2) ->
  List.NoDup (map (fun entry => path_join output_dir (snd (fst entry))) cs) ->
  exists w' : world,
    main_loop input_dir output_dir cs w = (Return tt, w') /\
    forall input_name output_name dtype : string,
      In (input_name, output_name, dtype) cs ->
      exists c : list byte,
        files w !! path_join input_dir input_name = Some c /\
        files w' !! path_join input_dir input_name = Some c /\
        files w' !! path_join output_dir output_name =
          Some (take 4 (drop 4 c) ++ take 4 c ++ drop 8 c).
Proof.
  revert w. induction cs as [|[[n0 o0] d0] cs IH]; intros w Hwf Hsep Hnd.
  - eexists. split; [reflexivity|]. intros ? ? ? [].
  - cbn [map fst snd] in Hnd. apply NoDup_cons_iff in Hnd as [Hfresh Hnd].
    destruct (Hwf n0 o0 d0 ltac:(left; reflexivity))
      as (c0 & dim & count & Hin0 & Hdec & Hd & Hc & Hlen).
    destruct (convert_well_formed_bytes _ (path_join output_dir o0) _ _ _ _ _
                Hin0 Hdec Hd Hc Hlen) as [out Hconv].
    rewrite main_loop_cons, Hin0, Hconv. cbn [files stdout].
    set (fs1 := <[path_join output_dir o0 := _]> (files w)).
    set (w1 := World fs1 _).
    assert (Hkeep : forall n o d, In (n, o, d) ((n0, o0, d0) :: cs) ->
              fs1 !! path_join input_dir n = files w !! path_join input_dir n).
    { intros n o d Hin. subst fs1. apply lookup_insert_ne.
      apply (Hsep n0 o0 d0 n o d); [left; reflexivity|exact Hin]. }
    destruct (IH w1) as (w' & Hrun & Hall).
    { intros n o d Hin.
      destruct (Hwf n o d ltac:(right; exact Hin))
        as (c & dm & ct & Hc1 & Hrest).
      exists c, dm, ct. split; [|exact Hrest].
      cbn [files w1]. rewrite (Hkeep n o d) by (right; exact Hin). exact Hc1. }
    { intros n1 o1 d1 n2 o2 d2 H1 H2.
      apply (Hsep n1 o1 d1 n2 o2 d2); right; assumption. }
    { exact Hnd. }
    exists w'. split; [exact Hrun|].
    intros n o d [[= -> -> ->]|Hin].
    + exists c0. split; [exact Hin0|].
      assert (Hout : forall p,
                ~ In p (map (fun entry => path_join output_dir (snd (fst entry))) cs) ->
                files w' !! p = fs1 !! p)
        by (intros p Hp; apply (main_loop_other_files _ _ _ _ _ _ _ Hrun Hp)).
      split.
      * rewrite Hout.
        { rewrite (Hkeep n o d) by (left; reflexivity). exact Hin0. }
        intros Hp. apply in_map_iff in Hp as ([[n' o'] d'] & Heq & Hp).
        apply (Hsep n' o' d' n o d);
          [right; exact Hp|left; reflexivity|exact Heq].
      * rewrite Hout by exact Hfresh. subst fs1. apply lookup_insert_eq.
    + destruct (Hall n o d Hin) as (c & Hc1 & Hc2 & Hc3).
      exists c. split; [|split; assumption].
      cbn [files w1] in Hc1. rewrite (Hkeep n o d) in Hc1 by (right; exact Hin).
      exact Hc1.
Qed.

End Facts.

Lemma main_loop_touches_only_outputs_witness :
  files (snd (main_loop "d" "o" conversions
           (World {[ "d/openai_500k_test_queries.bin"%string :=
                       le32 1 ++ le32 1 ++ repeat x01 4 ]} [])))
    !! "d/openai_500k_test_queries.bin"%string =
  files (World {[ "d/openai_500k_test_queries.bin"%string :=
                    le32 1 ++ le32 1 ++ repeat x01 4 ]} [])
    !! "d/openai_500k_test_queries.bin"%string.
Proof.
  apply (main_loop_touches_only_outputs "d" "o" conversions).
  intros input_name output_name dtype Hin.
  cbn [conversions In] in Hin.
  destruct Hin as [[= <- <- <-]|[[= <- <- <-]|[[= <- <- <-]|[]]]];
    vm_compute; discriminate.
Defined.

Lemma main_loop_all_missing_witness :
  main_loop "d" "o" conversions (World {[ "x"%string := [x01] ]} []) =
    (Return tt,
     World (files (World {[ "x"%string := [x01] ]} []))
       (stdout (World {[ "x"%string := [x01] ]} []) ++
        map (fun entry => Warning_not_found_skipping (fst (fst entry)))
          conversions)).
Proof.
  apply (main_loop_all_missing "d" "o" conversions).
  intros input_name output_name dtype Hin.
  cbn [conversions In] in Hin.
  destruct Hin as [[= <- <- <-]|[[= <- <- <-]|[[= <- <- <-]|[]]]];
    vm_compute; reflexivity.
Defined.

Lemma main_loop_converts_all_witness :
  exists w' : world,
    main_loop "d" "o" [("a.bin", "a.fbin", "f"); ("g.bin", "g.ibin", "q")]
      (World {[ "d/a.bin"%string := le32 1 ++ le32 2 ++ repeat x01 8;
                "d/g.bin"%string := le32 1 ++ le32 1 ++ repeat x02 8 ]} []) =
      (Return tt, w') /\
    forall input_name output_name dtype : string,
      In (input_name, output_name, dtype)
        [("a.bin", "a.fbin", "f"); ("g.bin", "g.ibin", "q")] ->
      exists c : list byte,
        files (World {[ "d/a.bin"%string := le32 1 ++ le32 2 ++ repeat x01 8;
                        "d/g.bin"%string := le32 1 ++ le32 1 ++ repeat x02 8 ]} [])
          !! path_join "d" input_name = Some c /\
        files w' !! path_join "d" input_name = Some c /\
        files w' !! path_join "o" output_name =
          Some (take 4 (drop 4 c) ++ take 4 c ++ drop 8 c).
Proof.
  apply (main_loop_converts_all "d" "o"
           [("a.bin", "a.fbin", "f"); ("g.bin", "g.ibin", "q")]).
  - intros n o d [[= <- <- <-]|[[= <- <- <-]|[]]].
    + exists (le32 1 ++ le32 2 ++ repeat x01 8), 1, 2.
      vm_compute. repeat split; discriminate.
    + exists (le32 1 ++ le32 1 ++ repeat x02 8), 1, 1.
      vm_compute. repeat split; discriminate.
  - intros n1 o1 d1 n2 o2 d2
      [[= <- <- <-]|[[= <- <- <-]|[]]] [[= <- <- <-]|[[= <- <- <-]|[]]];
      vm_compute; discriminate.
  - vm_compute. repeat constructor; cbn; intuition discriminate.
Defined.

End LoopMore.

(** ** More on the summary *)

Module SummaryMore.

Import AnalyzeCagraResults SummaryFacts.

Section Summary.

Context {float : Type} (zero : float)
  (format_fixed : nat -> number float -> string) (repr : float -> string).

Implicit Types (r x : result float) (l results : list (result float)).

Lemma sorted_head_le r l x :
  StronglySorted by_threads (r :: l) -> In x (r :: l) -> threads r <= threads x.
Proof.
  intros Hs [->|Hin]; [lia|].
  apply StronglySorted_inv in Hs as [_ Hall].
  rewrite List.Forall_forall in Hall. apply (Hall x Hin).
Qed.

Lemma filter_key_head r l :
  List.filter (fun y => threads y =? threads r) (r :: l) =
  r :: List.filter (fun y => threads y =? threads r) l.
Proof. cbn [List.filter]. rewrite Z.eqb_refl. reflexivity. Qed.

Lemma filter_key_other (k : Z) r l :
  threads r <> k ->
  List.filter (fun y => threads y =? k) (r :: l) =
  List.filter (fun y => threads y =? k) l.
Proof.
  intros Hne. cbn [List.filter].
  destruct (threads r =? k) eqn:E; [apply Z.eqb_eq in E; lia|reflexivity].
Qed.

(** Two ascending lists with the same records under every key, in the
    same order, are equal. *)
Lemma sorted_same_keys_eq l1 l2 :
  StronglySorted by_threads l1 ->
  StronglySorted by_threads l2 ->
  (forall k : Z,
     List.filter (fun y => threads y =? k) l1 =
     List.filter (fun y => threads y =? k) l2) ->
  l1 = l2.
Proof.
  revert l2. induction l1 as [|a l1 IH]; intros l2 H1 H2 Hk.
  - destruct l2 as [|b l2]; [reflexivity|].
    specialize (Hk (threads b)). rewrite filter_key_head in Hk. discriminate.
  - destruct l2 as [|b l2].
    { specialize (Hk (threads a)). rewrite filter_key_head in Hk.
      discriminate. }
    assert (Hab : threads a = threads b).
    { assert (In a (b :: l2)) as Ha.
      { pose proof (Hk (threads a)) as E. rewrite filter_key_head in E.
        assert (In a (List.filter (fun y => threads y =? threads a) (b :: l2)))
          as Hf by (rewrite <- E; left; reflexivity).
        apply List.filter_In in Hf as [Hf _]. exact Hf. }
      assert (In b (a :: l1)) as Hb.
      { pose proof (Hk (threads b)) as E. rewrite filter_key_head in E.
        assert (In b (List.filter (fun y => threads y =? threads b) (a :: l1)))
          as Hf by (rewrite E; left; reflexivity).
        apply List.filter_In in Hf as [Hf _]. exact Hf. }
      pose proof (sorted_head_le _ _ _ H1 Hb).
      pose proof (sorted_head_le _ _ _ H2 Ha). lia. }
    pose proof (Hk (threads a)) as E.
    rewrite filter_key_head, Hab, filter_key_head in E.
    injection E as -> E.
    f_equal. apply IH.
    + apply StronglySorted_inv in H1 as [H1 _]. exact H1.
    + apply StronglySorted_inv in H2 as [H2 _]. exact H2.
    + intros k. destruct (Z.eq_dec (threads b) k) as [<-|Hne].
      * exact E.
      * specialize (Hk k). rewrite !filter_key_other in Hk by exact Hne.
        exact Hk.
Qed.

(** X13.  The sort leaves a list that is already in ascending order of
    [threads] exactly as it is. *)
Theorem sort_of_sorted l :
  StronglySorted by_threads l -> sort l = l.
Proof.
  intros Hs. symmetry. apply sorted_same_keys_eq.
  - exact Hs.
  - apply sort_sorted.
  - intros k. symmetry. apply sort_stable.
Qed.

(** X14.  The sorted list is the only one a stable ascending sort can
    return: every list in ascending order of [threads] that holds, for
    each key, the records of the input with that key in their input
    order is the list computed by [sort]. *)
Theorem sort_unique l sorted :
  StronglySorted by_threads sorted ->
  (forall k : Z,
     List.filter (fun y => threads y =? k) sorted =
     List.filter (fun y => threads y =? k) l) ->
  sorted = sort l.
Proof.
  intros Hs Hk. apply sorted_same_keys_eq.
  - exact Hs.
  - apply sort_sorted.
  - intros k. rewrite Hk. symmetry. apply sort_stable.
Qed.

(** X15.  The search parameters printed after the table are those of
    one record only: the first record, in input order, among those with
    the smallest [threads].  What is printed is the table header, the
    rule, the table rows, and then exactly: a blank line, the rule of
    equal signs, the title, the line for k, the three lines with the
    itopk, the search width and the refine ratio of that record ('N/A'
    when it has no counters), a blank line, the line naming the CSV file
    and a blank line. *)
Theorem summary_parameters_of_first_minimum (results_dir : string) results :
  results <> [] ->
  exists r (rows : list (line float)) (csv : string),
    In r results /\
    (forall x, In x results -> threads r <= threads x) /\
    hd_error (List.filter (fun y => threads y =? threads r) results) = Some r /\
    Forall (fun row : line float =>
              match row with
              | Table_row _ _ _ _ _ => True
              | _ => False
              end) rows /\
    summarize zero format_fixed repr results_dir results =
      Done
        ([Table_header; Dashes] ++ rows ++
         [ Blank; Equals; Search_parameters; Param_k;
           Param_itopk_size
             (match custom r with Some c => Some (itopk c) | None => None end);
           Param_search_width
             (match custom r with
              | Some c => Some (search_width c)
              | None => None
              end);
           Param_refine_ratio
             (match custom r with
              | Some c => Some (refine_ratio c)
              | None => None
              end);
           Blank; Summary_saved_to (results_dir ++ "/summary.csv"); Blank ])
        (results_dir ++ "/summary.csv") csv.
Proof.
  intros Hne. destruct results as [|r0 l0]; [contradiction|].
  pose proof (sort_perm (r0 :: l0)) as Hperm.
  pose proof (sort_sorted (r0 :: l0)) as Hsorted.
  pose proof (fun k => sort_stable k (r0 :: l0)) as Hstable.
  unfold summarize.
  destruct (sort (r0 :: l0)) as [|r s] eqn:Es.
  { apply Permutation_sym, Permutation_nil in Hperm. discriminate. }
  exists r, (map (table_row zero) (r :: s)). eexists.
  split; [apply (Permutation_in _ (Permutation_sym Hperm)); left; reflexivity|].
  split.
  { intros x Hx. apply (sorted_head_le _ _ _ Hsorted).
    apply (Permutation_in _ Hperm Hx). }
  split.
  { rewrite <- Hstable, filter_key_head. reflexivity. }
  split.
  { apply List.Forall_forall. intros row Hrow.
    apply in_map_iff in Hrow as (y & <- & _). exact I. }
  cbv zeta. f_equal. rewrite <- !app_assoc. reflexivity.
Qed.

End Summary.

Lemma sort_of_sorted_witness :
  sort [ Result "a" 1 (Int 1) (Float 0) (Float 0) "ms" None;
         Result "b" 1 (Int 1) (Float 7) (Float 7) "ms" None;
         Result "c" 4 (Int 1) (Float 0) (Float 0) "ms" (@None (counters Z)) ] =
  [ Result "a" 1 (Int 1) (Float 0) (Float 0) "ms" None;
    Result "b" 1 (Int 1) (Float 7) (Float 7) "ms" None;
    Result "c" 4 (Int 1) (Float 0) (Float 0) "ms" None ].
Proof.
  apply (sort_of_sorted
           [ Result "a" 1 (Int 1) (Float 0) (Float 0) "ms" None;
             Result "b" 1 (Int 1) (Float 7) (Float 7) "ms" None;
             Result "c" 4 (Int 1) (Float 0) (Float 0) "ms" (@None (counters Z)) ]).
  repeat constructor; unfold by_threads; cbn; lia.
Defined.

Lemma sort_unique_witness :
  [ Result "a" 1 (Int 1) (Float 0) (Float 0) "ms" None;
    Result "c" 4 (Int 1) (Float 0) (Float 0) "ms" (@None (counters Z)) ] =
  sort [ Result "c" 4 (Int 1) (Float 0) (Float 0) "ms" None;
         Result "a" 1 (Int 1) (Float 0) (Float 0) "ms" None ].
Proof.
  apply (sort_unique
           [ Result "c" 4 (Int 1) (Float 0) (Float 0) "ms" None;
             Result "a" 1 (Int 1) (Float 0) (Float 0) "ms" None ]
           [ Result "a" 1 (Int 1) (Float 0) (Float 0) "ms" None;
             Result "c" 4 (Int 1) (Float 0) (Float 0) "ms" (@None (counters Z)) ]).
  - repeat constructor; unfold by_threads; cbn; lia.
  - intros k. cbn [List.filter threads].
    destruct (4 =? k) eqn:E4, (1 =? k) eqn:E1; try reflexivity.
    apply Z.eqb_eq in E4, E1. lia.
Defined.

Lemma summary_parameters_of_first_minimum_witness :
  let results : list (result Z) :=
    [ Result "b" 4 (Int 1) (Float 0) (Float 0) "ms" None;
      Result "a" 1 (Int 1) (Float 0) (Float 0) "ms"
        (Some (Counters (Float 9) (Float 200) (Float 50) (Float 3) (Float 0)
                 (Float 64) (Int 1) (Float 2)));
      Result "c" 1 (Int 1) (Float 0) (Float 0) "ms" None ] in
  exists (r : result Z) (rows : list (line Z)) (csv : string),
    In r results /\
    (forall x, In x results -> threads r <= threads x) /\
    hd_error (List.filter (fun y => threads y =? threads r) results) = Some r /\
    Forall (fun row : line Z =>
              match row with
              | Table_row _ _ _ _ _ => True
              | _ => False
              end) rows /\
    summarize 0 (fun _ v => str_number str v) str "out" results =
      Done
        ([Table_header; Dashes] ++ rows ++
         [ Blank; Equals; Search_parameters; Param_k;
           Param_itopk_size
             (match custom r with Some c => Some (itopk c) | None => None end);
           Param_search_width
             (match custom r with
              | Some c => Some (search_width c)
              | None => None
              end);
           Param_refine_ratio
             (match custom r with
              | Some c => Some (refine_ratio c)
              | None => None
              end);
           Blank; Summary_saved_to ("out" ++ "/summary.csv"); Blank ])
        ("out" ++ "/summary.csv") csv.
Proof.
  intros results.
  apply (summary_parameters_of_first_minimum 0 (fun _ v => str_number str v)
           str "out" results).
  discriminate.
Defined.

End SummaryMore.

(** ** The parser of one result file *)

Module ParseFacts.

Import ParseBenchmarkResult.

Section Parse.

Context {float : Type} (zero : float).

Implicit Types (d b c result : gmap string (json float)) (data v : json float).

Lemma get_dict (key : string) (dflt : json float) d :
  get key dflt (JDict d) = inr (default dflt (d !! key)).
Proof. unfold get. destruct (d !! key); reflexivity. Qed.

Lemma contains_dict (key : string) d :
  contains key (JDict d) = inr (bool_decide (is_Some (d !! key))).
Proof. reflexivity. Qed.

(** The run on a dict whose ['benchmarks'] is a list that starts with a
    dict. *)
Lemma parse_list_dict d b (rest : list (json float)) :
  d !! "benchmarks" = Some (JList (JDict b :: rest)) ->
  parse_benchmark_result zero (JDict d) =
  let base : gmap string (json float) :=
    <["time_unit" := default (JStr "ms") (b !! "time_unit")]>
      (<["cpu_time" := default (JInt 0) (b !! "cpu_time")]>
         (<["real_time" := default (JInt 0) (b !! "real_time")]>
            (<["iterations" := default (JInt 0) (b !! "iterations")]>
               (<["threads" := default (JInt 1) (b !! "threads")]>
                  (<["name" := default (JStr "") (b !! "name")]> ∅))))) in
  match b !! "counters" with
  | None => inr (Some base)
  | Some (JDict c) =>
      inr (Some
        (<["refine_ratio" := default (JFloat zero) (c !! "refine_ratio")]>
           (<["search_width" := default (JInt 0) (c !! "search_width")]>
              (<["itopk" := default (JInt 0) (c !! "itopk")]>
                 (<["end_to_end" := default (JFloat zero) (c !! "end_to_end")]>
                    (<["latency" := default (JFloat zero) (c !! "Latency")]>
                       (<["total_queries" := default (JInt 0) (c !! "total_queries")]>
                          (<["qps" := default (JFloat zero) (c !! "items_per_second")]>
                             (<["recall" := default (JFloat zero) (c !! "Recall")]>
                                base)))))))))
  | Some _ => inl AttributeError
  end.
Proof.
  intros Hb. unfold parse_benchmark_result.
  rewrite contains_dict, Hb, bool_decide_eq_true_2 by eauto.
  cbn [mbind exn_bind negb getitem len getitem_0 length Z.of_nat Z.eqb].
  rewrite Hb. cbn [mbind exn_bind negb getitem len getitem_0 length Z.of_nat Z.eqb].
  rewrite !get_dict, contains_dict.
  cbn [mbind exn_bind getitem].
  destruct (b !! "counters") as [v|] eqn:Hc.
  - rewrite bool_decide_eq_true_2 by eauto. cbn [mbind exn_bind].
    destruct v; try reflexivity.
    repeat (rewrite get_dict; cbn [mbind exn_bind]). reflexivity.
  - rewrite bool_decide_eq_false_2 by (intros [? ?]; discriminate).
    reflexivity.
Qed.

(** Only a dict whose ['benchmarks'] is a list that starts with a dict
    can give a dictionary. *)
Lemma parse_some_shape data result :
  parse_benchmark_result zero data = inr (Some result) ->
  exists d b (rest : list (json float)),
    data = JDict d /\ d !! "benchmarks" = Some (JList (JDict b :: rest)).
Proof.
  unfold parse_benchmark_result.
  destruct data as [| | | | s | l | d]; try discriminate.
  - cbn. destruct (index 0 "benchmarks" s); discriminate.
  - cbn. destruct (existsb _ l); discriminate.
  - rewrite contains_dict. cbn [mbind exn_bind].
    destruct (d !! "benchmarks") as [v|] eqn:Hb.
    2:{ rewrite bool_decide_eq_false_2 by (intros [? ?]; discriminate).
        discriminate. }
    rewrite bool_decide_eq_true_2 by eauto.
    cbn [negb getitem mbind exn_bind]. rewrite Hb. cbn [mbind exn_bind].
    destruct v as [| | | | s | l | d']; try discriminate.
    + destruct s as [|a s]; [discriminate|]. discriminate.
    + destruct l as [|x l]; [discriminate|].
      destruct x; try discriminate. eauto.
    + cbn [len mbind exn_bind getitem_0]. destruct (_ =? 0); discriminate.
Qed.

Lemma parse_dict_result_nonempty data result :
  parse_benchmark_result zero data = inr (Some result) -> result <> ∅.
Proof.
  intros H. destruct (parse_some_shape _ _ H) as (d & b & rest & -> & Hb).
  rewrite (parse_list_dict _ _ _ Hb) in H. cbv zeta in H.
  destruct (b !! "counters") as [[]|]; try discriminate;
    injection H as <-; apply insert_non_empty.
Qed.

(** X16.  On a loaded dict the parser returns [None] exactly when the
    key ['benchmarks'] is missing or its value is empty: an empty list,
    an empty string or an empty dict. *)
Theorem parse_none_iff d :
  parse_benchmark_result zero (JDict d) = inr None <->
  d !! "benchmarks" = None \/
  d !! "benchmarks" = Some (JList []) \/
  d !! "benchmarks" = Some (JStr "") \/
  d !! "benchmarks" = Some (JDict ∅).
Proof.
  split.
  - destruct (d !! "benchmarks") as [v|] eqn:Hb; [|auto].
    destruct v as [| | | | s | l | d'].
    1-4: unfold parse_benchmark_result;
         rewrite contains_dict, Hb, bool_decide_eq_true_2 by eauto;
         cbn [mbind exn_bind negb getitem]; rewrite Hb; discriminate.
    + destruct s as [|a s]; [auto|].
      unfold parse_benchmark_result.
      rewrite contains_dict, Hb, bool_decide_eq_true_2 by eauto.
      cbn [mbind exn_bind negb getitem]. rewrite Hb. discriminate.
    + destruct l as [|x l]; [auto|].
      destruct x as [| | | | | |b].
      1-6: unfold parse_benchmark_result;
           rewrite contains_dict, Hb, bool_decide_eq_true_2 by eauto;
           cbn [mbind exn_bind negb getitem]; rewrite Hb; discriminate.
      rewrite (parse_list_dict _ _ _ Hb). cbv zeta.
      destruct (b !! "counters") as [[]|]; discriminate.
    + unfold parse_benchmark_result.
      rewrite contains_dict, Hb, bool_decide_eq_true_2 by eauto.
      cbn [mbind exn_bind negb getitem]. rewrite Hb.
      cbn [mbind exn_bind len getitem_0].
      destruct (Z.of_nat (size d') =? 0) eqn:E; [|discriminate].
      intros _. apply Z.eqb_eq in E.
      assert (d' = ∅) as -> by (apply map_size_empty_iff; lia). auto.
  - unfold parse_benchmark_result. rewrite contains_dict.
    intros [Hb|[Hb|[Hb|Hb]]]; rewrite Hb.
    + rewrite bool_decide_eq_false_2 by (intros [? ?]; discriminate).
      reflexivity.
    + rewrite bool_decide_eq_true_2 by eauto.
      cbn [mbind exn_bind negb getitem]. rewrite Hb. reflexivity.
    + rewrite bool_decide_eq_true_2 by eauto.
      cbn [mbind exn_bind negb getitem]. rewrite Hb. reflexivity.
    + rewrite bool_decide_eq_true_2 by eauto.
      cbn [mbind exn_bind negb getitem]. rewrite Hb.
      cbn [mbind exn_bind len]. rewrite map_size_empty. reflexivity.
Qed.

(** X17.  When the first benchmark is a dict without ['counters'], the
    result has exactly the six keys name, threads, iterations,
    real_time, cpu_time and time_unit; each holds the value of the
    benchmark under that key, or, when the benchmark lacks the key, the
    default: the empty string, 1, 0, 0, 0 and 'ms'. *)
Theorem parse_without_counters d b (rest : list (json float)) :
  d !! "benchmarks" = Some (JList (JDict b :: rest)) ->
  b !! "counters" = None ->
  exists result,
    parse_benchmark_result zero (JDict d) = inr (Some result) /\
    result !! "name" = Some (default (JStr "") (b !! "name")) /\
    result !! "threads" = Some (default (JInt 1) (b !! "threads")) /\
    result !! "iterations" = Some (default (JInt 0) (b !! "iterations")) /\
    result !! "real_time" = Some (default (JInt 0) (b !! "real_time")) /\
    result !! "cpu_time" = Some (default (JInt 0) (b !! "cpu_time")) /\
    result !! "time_unit" = Some (default (JStr "ms") (b !! "time_unit")) /\
    dom result =
      ({[ "name"; "threads"; "iterations"; "real_time"; "cpu_time";
          "time_unit" ]} : gset string).
Proof.
  intros Hb Hc. rewrite (parse_list_dict _ _ _ Hb), Hc. cbv zeta.
  eexists. split; [reflexivity|].
  split; [by simplify_map_eq|]. split; [by simplify_map_eq|].
  split; [by simplify_map_eq|]. split; [by simplify_map_eq|].
  split; [by simplify_map_eq|]. split; [by simplify_map_eq|].
  rewrite !dom_insert_L, dom_empty_L. set_solver.
Qed.

(** X18.  When the first benchmark is a dict whose ['counters'] is a
    dict, the result also holds the eight counter keys: recall, qps and
    latency are read from Recall, items_per_second and Latency, the
    others from the key of the same name, and a counter that is missing
    gets the default 0.0 or 0.  The result has fourteen keys. *)
Theorem parse_with_counters d b c (rest : list (json float)) :
  d !! "benchmarks" = Some (JList (JDict b :: rest)) ->
  b !! "counters" = Some (JDict c) ->
  exists result,
    parse_benchmark_result zero (JDict d) = inr (Some result) /\
    result !! "threads" = Some (default (JInt 1) (b !! "threads")) /\
    result !! "recall" = Some (default (JFloat zero) (c !! "Recall")) /\
    result !! "qps" = Some (default (JFloat zero) (c !! "items_per_second")) /\
    result !! "total_queries" = Some (default (JInt 0) (c !! "total_queries")) /\
    result !! "latency" = Some (default (JFloat zero) (c !! "Latency")) /\
    result !! "end_to_end" = Some (default (JFloat zero) (c !! "end_to_end")) /\
    result !! "itopk" = Some (default (JInt 0) (c !! "itopk")) /\
    result !! "search_width" = Some (default (JInt 0) (c !! "search_width")) /\
    result !! "refine_ratio" = Some (default (JFloat zero) (c !! "refine_ratio")) /\
    size result = 14%nat.
Proof.
  intros Hb Hc. rewrite (parse_list_dict _ _ _ Hb), Hc. cbv zeta.
  eexists. split; [reflexivity|].
  do 9 (split; [by simplify_map_eq|]).
  repeat (rewrite map_size_insert_None by (by simplify_map_eq)).
  rewrite map_size_empty. reflexivity.
Qed.

(** X19.  Only the first benchmark of the list is read: the other
    elements of the list and the other keys of the loaded dict have no
    effect on what the parser returns or raises. *)
Theorem parse_first_benchmark_only d (x : json float) (rest : list (json float)) :
  d !! "benchmarks" = Some (JList (x :: rest)) ->
  parse_benchmark_result zero (JDict d) =
  parse_benchmark_result zero (JDict {[ "benchmarks" := JList [x] ]}).
Proof.
  intros Hb. unfold parse_benchmark_result.
  rewrite !contains_dict, Hb, lookup_singleton_eq.
  rewrite !bool_decide_eq_true_2 by eauto.
  cbn [mbind exn_bind negb getitem]. rewrite Hb, lookup_singleton_eq.
  reflexivity.
Qed.

(** X20.  On a loaded dict the parser returns a dictionary exactly when
    ['benchmarks'] is a list whose first element is a dict in which
    ['counters'] is absent or is a dict. *)
Theorem parse_returns_dict_iff d :
  (exists result, parse_benchmark_result zero (JDict d) = inr (Some result)) <->
  exists b (rest : list (json float)),
    d !! "benchmarks" = Some (JList (JDict b :: rest)) /\
    (b !! "counters" = None \/ exists c, b !! "counters" = Some (JDict c)).
Proof.
  split.
  - intros [result H].
    destruct (parse_some_shape _ _ H) as (d' & b & rest & [= <-] & Hb).
    exists b, rest. split; [exact Hb|].
    rewrite (parse_list_dict _ _ _ Hb) in H. cbv zeta in H.
    destruct (b !! "counters") as [[]|]; try discriminate; eauto.
  - intros (b & rest & Hb & Hc). rewrite (parse_list_dict _ _ _ Hb). cbv zeta.
    destruct Hc as [->|[c ->]]; eauto.
Qed.

(** X21.  When ['benchmarks'] is a non-empty list, the parser raises
    [AttributeError] exactly when the first element is not a dict, or is
    a dict whose ['counters'] is present and is not a dict. *)
Theorem parse_attribute_error_iff d (x : json float) (rest : list (json float)) :
  d !! "benchmarks" = Some (JList (x :: rest)) ->
  parse_benchmark_result zero (JDict d) = inl AttributeError <->
  (forall b, x <> JDict b) \/
  exists b v, x = JDict b /\ b !! "counters" = Some v /\ forall c, v <> JDict c.
Proof.
  intros Hb. destruct x as [| | | | | |b].
  1-6: split; [intros _; left; discriminate|intros _];
       unfold parse_benchmark_result;
       rewrite contains_dict, Hb, bool_decide_eq_true_2 by eauto;
       cbn [mbind exn_bind negb getitem]; rewrite Hb; reflexivity.
  rewrite (parse_list_dict _ _ _ Hb). cbv zeta. split.
  - intros H. right. exists b.
    destruct (b !! "counters") as [v|]; [|discriminate].
    exists v. split; [reflexivity|]. split; [reflexivity|].
    intros c ->. discriminate.
  - intros [Hx|(b' & v & [= <-] & Hc & Hv)]; [destruct (Hx b); reflexivity|].
    rewrite Hc. destruct v; try reflexivity. destruct (Hv d0). reflexivity.
Qed.

Lemma parse_base_keys data result :
  parse_benchmark_result zero data = inr (Some result) ->
  is_Some (result !! "name") /\ is_Some (result !! "threads") /\
  is_Some (result !! "iterations") /\ is_Some (result !! "real_time") /\
  is_Some (result !! "cpu_time") /\ is_Some (result !! "time_unit").
Proof.
  intros H.
  destruct (parse_some_shape _ _ H) as (d & b & rest & -> & Hb).
  rewrite (parse_list_dict _ _ _ Hb) in H. cbv zeta in H. clear Hb.
  destruct (b !! "counters") as [[]|]; try discriminate;
    injection H as <-;
    rewrite ?lookup_insert_ne by discriminate;
    repeat split;
    rewrite ?lookup_insert_ne by discriminate;
    rewrite lookup_insert_eq; eauto.
Qed.

(** X22.  Every dictionary the parser returns, on any loaded value,
    holds the six keys name, threads, iterations, real_time, cpu_time and
    time_unit, so it counts as true in [if result:] and the sort key
    [x['threads']] is always there. *)
Theorem parse_result_has_base_keys data result :
  parse_benchmark_result zero data = inr (Some result) ->
  is_Some (result !! "name") /\ is_Some (result !! "threads") /\
  is_Some (result !! "iterations") /\ is_Some (result !! "real_time") /\
  is_Some (result !! "cpu_time") /\ is_Some (result !! "time_unit") /\
  truthy (Some result) = true.
Proof.
  intros H.
  destruct (parse_base_keys _ _ H) as (K1 & K2 & K3 & K4 & K5 & K6).
  do 6 (split; [assumption|]).
  unfold truthy.
  rewrite bool_decide_eq_false_2
    by exact (parse_dict_result_nonempty _ _ H).
  reflexivity.
Qed.

Lemma collect_results_cons data (rest : list (json float)) :
  collect_results zero (data :: rest) =
  match parse_benchmark_result zero data with
  | inl e => inl e
  | inr r =>
      match collect_results zero rest with
      | inl e => inl e
      | inr results =>
          inr (match r with
               | Some result => result :: results
               | None => results
               end)
      end
  end.
Proof.
  cbn [collect_results mbind exn_bind].
  destruct (parse_benchmark_result zero data) as [e|[result|]] eqn:H;
    [reflexivity| |].
  - destruct (collect_results zero rest); [reflexivity|].
    pose proof (parse_dict_result_nonempty _ _ H) as Hne.
    cbn [mbind exn_bind]. unfold truthy.
    rewrite bool_decide_eq_false_2 by exact Hne. reflexivity.
  - destruct (collect_results zero rest); reflexivity.
Qed.

(** X23.  When the loop over the loaded files ends, the list of results
    holds, in the order of the files, the dictionaries of the files
    that gave one; the files for which the parser returned [None] are
    left out, and every collected dictionary has the key threads. *)
Theorem collect_results_keeps_order (loaded : list (json float))
    (results : list (gmap string (json float))) :
  collect_results zero loaded = inr results ->
  exists parsed : list (option (gmap string (json float))),
    Forall2 (fun data r => parse_benchmark_result zero data = inr r)
      loaded parsed /\
    results = omap id parsed /\
    Forall (fun r => is_Some (r !! "threads")) results.
Proof.
  revert results. induction loaded as [|data rest IH]; intros results H.
  - injection H as <-. exists []. repeat constructor.
  - rewrite collect_results_cons in H.
    destruct (parse_benchmark_result zero data) as [e|r] eqn:Hp;
      [discriminate|].
    destruct (collect_results zero rest) as [e|rs]; [discriminate|].
    injection H as <-.
    destruct (IH rs eq_refl) as (parsed & Hall & -> & Hkeys).
    exists (r :: parsed). split; [constructor; assumption|].
    destruct r as [result|]; cbn; [|split; [reflexivity|exact Hkeys]].
    split; [reflexivity|]. constructor; [|exact Hkeys].
    apply (parse_base_keys _ _ Hp).
Qed.

(** X24.  One file on which the parser raises ends the whole loop: the
    exception of the first such file is the outcome, whatever the files
    after it hold, and no list of results is produced. *)
Theorem collect_results_first_error
    (before after : list (json float)) data (e : exn) :
  Forall (fun x => exists r, parse_benchmark_result zero x = inr r) before ->
  parse_benchmark_result zero data = inl e ->
  collect_results zero (before ++ data :: after) = inl e.
Proof.
  intros Hok Herr. induction Hok as [|x before [r Hr] _ IH].
  - cbn [app]. rewrite collect_results_cons, Herr. reflexivity.
  - rewrite <- app_comm_cons, collect_results_cons, Hr, IH. reflexivity.
Qed.

End Parse.

Lemma parse_without_counters_witness :
  let b : gmap string (json Z) := {[ "threads" := JInt 8 ]} in
  let d : gmap string (json Z) := {[ "benchmarks" := JList [JDict b; JNone] ]} in
  exists result : gmap string (json Z),
    parse_benchmark_result 0 (JDict d) = inr (Some result) /\
    result !! "name" = Some (default (JStr "") (b !! "name")) /\
    result !! "threads" = Some (default (JInt 1) (b !! "threads")) /\
    result !! "iterations" = Some (default (JInt 0) (b !! "iterations")) /\
    result !! "real_time" = Some (default (JInt 0) (b !! "real_time")) /\
    result !! "cpu_time" = Some (default (JInt 0) (b !! "cpu_time")) /\
    result !! "time_unit" = Some (default (JStr "ms") (b !! "time_unit")) /\
    dom result =
      ({[ "name"; "threads"; "iterations"; "real_time"; "cpu_time";
          "time_unit" ]} : gset string).
Proof.
  intros b d.
  apply (parse_without_counters 0 d b [JNone]); reflexivity.
Defined.

Lemma parse_with_counters_witness :
  let c : gmap string (json Z) := {[ "Recall" := JFloat 9 ]} in
  let b : gmap string (json Z) := {[ "counters" := JDict c ]} in
  let d : gmap string (json Z) := {[ "benchmarks" := JList [JDict b] ]} in
  exists result : gmap string (json Z),
    parse_benchmark_result 0 (JDict d) = inr (Some result) /\
    result !! "threads" = Some (default (JInt 1) (b !! "threads")) /\
    result !! "recall" = Some (default (JFloat 0) (c !! "Recall")) /\
    result !! "qps" = Some (default (JFloat 0) (c !! "items_per_second")) /\
    result !! "total_queries" = Some (default (JInt 0) (c !! "total_queries")) /\
    result !! "latency" = Some (default (JFloat 0) (c !! "Latency")) /\
    result !! "end_to_end" = Some (default (JFloat 0) (c !! "end_to_end")) /\
    result !! "itopk" = Some (default (JInt 0) (c !! "itopk")) /\
    result !! "search_width" = Some (default (JInt 0) (c !! "search_width")) /\
    result !! "refine_ratio" = Some (default (JFloat 0) (c !! "refine_ratio")) /\
    size result = 14%nat.
Proof.
  intros c b d.
  apply (parse_with_counters 0 d b c []); reflexivity.
Defined.

Lemma parse_first_benchmark_only_witness :
  let d : gmap string (json Z) :=
    {[ "benchmarks" := JList [JDict ∅; JInt 3]; "context" := JNone ]} in
  let d1 : gmap string (json Z) := {[ "benchmarks" := JList [JDict ∅] ]} in
  parse_benchmark_result 0 (JDict d) = parse_benchmark_result 0 (JDict d1).
Proof.
  intros d d1.
  apply (parse_first_benchmark_only 0 d (JDict ∅) [JInt 3]).
  reflexivity.
Defined.

Lemma parse_attribute_error_iff_witness :
  let b0 : gmap string (json Z) := {[ "counters" := JInt 1 ]} in
  let d : gmap string (json Z) := {[ "benchmarks" := JList [JDict b0] ]} in
  parse_benchmark_result 0 (JDict d) = inl AttributeError <->
  (forall b, JDict b0 <> JDict b) \/
  exists b v,
    JDict b0 = JDict b /\ b !! "counters" = Some v /\ forall c, v <> JDict c.
Proof.
  intros b0 d.
  apply (parse_attribute_error_iff 0 d (JDict b0) []).
  reflexivity.
Defined.

Lemma parse_result_has_base_keys_witness :
  let d : gmap string (json Z) := {[ "benchmarks" := JList [JDict ∅] ]} in
  let result : gmap string (json Z) :=
    <["time_unit" := JStr "ms"]>
      (<["cpu_time" := JInt 0]>
         (<["real_time" := JInt 0]>
            (<["iterations" := JInt 0]>
               (<["threads" := JInt 1]>
                  (<["name" := JStr ""]> ∅))))) in
  is_Some (result !! "name") /\ is_Some (result !! "threads") /\
  is_Some (result !! "iterations") /\ is_Some (result !! "real_time") /\
  is_Some (result !! "cpu_time") /\ is_Some (result !! "time_unit") /\
  truthy (Some result) = true.
Proof.
  intros d result.
  apply (parse_result_has_base_keys 0 (JDict d) result).
  reflexivity.
Defined.

Lemma collect_results_keeps_order_witness :
  let d1 : gmap string (json Z) :=
    {[ "benchmarks" := JList [JDict {[ "threads" := JInt 2 ]}] ]} in
  let d2 : gmap string (json Z) :=
    {[ "benchmarks" := JList [JDict {[ "threads" := JInt 1 ]}] ]} in
  let loaded : list (json Z) := [JDict d1; JDict ∅; JDict d2] in
  let results : list (gmap string (json Z)) :=
    match collect_results 0 loaded with
    | inr results => results
    | inl _ => []
    end in
  exists parsed : list (option (gmap string (json Z))),
    Forall2 (fun data r => parse_benchmark_result 0 data = inr r)
      loaded parsed /\
    results = omap id parsed /\
    Forall (fun r => is_Some (r !! "threads")) results.
Proof.
  intros d1 d2 loaded results.
  apply (collect_results_keeps_order 0 loaded results).
  reflexivity.
Defined.

Lemma collect_results_first_error_witness :
  collect_results 0
    ([JDict ∅] ++ JInt 5 :: [JDict ∅; JStr "x"]) = inl (B := list (gmap string (json Z))) TypeError.
Proof.
  apply (collect_results_first_error 0 [JDict ∅] [JDict ∅; JStr "x"] (JInt 5)).
  - repeat constructor. eexists. reflexivity.
  - reflexivity.
Defined.

End ParseFacts.

(** ** The records that the parsed dictionaries stand for *)

Module RecordFacts.

Import AnalyzeCagraResults ParseBenchmarkResult ParsedRecords.

Section Records.

Context {float : Type} (zero : float).

Lemma as_string_Some (v : json float) s : as_string v = Some s -> v = JStr s.
Proof. destruct v; try discriminate. by intros [= ->]. Qed.

Lemma as_int_Some (v : json float) n : as_int v = Some n -> v = JInt n.
Proof. destruct v; try discriminate. by intros [= ->]. Qed.

Lemma as_number_Some (v : json float) n : as_number v = Some n -> v = json_of n.
Proof. destruct v; try discriminate; by intros [= <-]. Qed.

Lemma as_number_json_of (n : number float) : as_number (json_of n) = Some n.
Proof. by destruct n. Qed.

Lemma lookup_as {A} (f : json float -> option A) (g : A -> json float)
    (d : gmap string (json float)) key a :
  (forall v a, f v = Some a -> v = g a) ->
  d !! key ≫= f = Some a -> d !! key = Some (g a).
Proof.
  intros Hf H. destruct (d !! key) as [v|]; [|discriminate].
  cbn in H. by rewrite (Hf _ _ H).
Qed.


(** The record of the dictionary that the parser builds. *)
Lemma record_of_inserts (v1 v2 v3 v4 v5 v6 : json float) :
  record_of
    (<["time_unit" := v6]>
       (<["cpu_time" := v5]>
          (<["real_time" := v4]>
             (<["iterations" := v3]>
                (<["threads" := v2]>
                   (<["name" := v1]> ∅)))))) =
  (name ← as_string v1 ;
   threads ← as_int v2 ;
   iterations ← as_number v3 ;
   real_time ← as_number v4 ;
   cpu_time ← as_number v5 ;
   time_unit ← as_string v6 ;
   Some (Result name threads iterations real_time cpu_time time_unit None)).
Proof.
  unfold record_of. by simplify_map_eq.
Qed.


Lemma record_of_inserts_counters
    (v1 v2 v3 v4 v5 v6 c1 c2 c3 c4 c5 c6 c7 c8 : json float) :
  record_of
    (<["refine_ratio" := c8]>
       (<["search_width" := c7]>
          (<["itopk" := c6]>
             (<["end_to_end" := c5]>
                (<["latency" := c4]>
                   (<["total_queries" := c3]>
                      (<["qps" := c2]>
                         (<["recall" := c1]>
                            (<["time_unit" := v6]>
                               (<["cpu_time" := v5]>
                                  (<["real_time" := v4]>
                                     (<["iterations" := v3]>
                                        (<["threads" := v2]>
                                           (<["name" := v1]> ∅)))))))))))))) =
  (name ← as_string v1 ;
   threads ← as_int v2 ;
   iterations ← as_number v3 ;
   real_time ← as_number v4 ;
   cpu_time ← as_number v5 ;
   time_unit ← as_string v6 ;
   recall ← as_number c1 ;
   qps ← as_number c2 ;
   total_queries ← as_number c3 ;
   latency ← as_number c4 ;
   end_to_end ← as_number c5 ;
   itopk ← as_number c6 ;
   search_width ← as_number c7 ;
   refine_ratio ← as_number c8 ;
   Some (Result name threads iterations real_time cpu_time time_unit
           (Some (Counters recall qps total_queries latency end_to_end
                    itopk search_width refine_ratio)))).
Proof.
  unfold record_of. simplify_map_eq.
  destruct (as_string v1), (as_int v2), (as_number v3), (as_number v4),
    (as_number v5), (as_string v6); try reflexivity.
  cbn [mbind option_bind].
  destruct (as_number c1), (as_number c2), (as_number c3), (as_number c4),
    (as_number c5), (as_number c6), (as_number c7), (as_number c8);
    reflexivity.
Qed.

(** X26.  When the first benchmark has no ['counters'] and its values
    under the six base keys, or their defaults, are a string, an integer,
    three numbers and a string, the parser returns a dictionary that
    stands for the record of these six values, without counters. *)
Theorem parse_typed_without_counters
    (d b : gmap string (json float)) (rest : list (json float))
    (name_ time_unit_ : string) (threads_ : Z)
    (iterations_ real_time_ cpu_time_ : number float) :
  d !! "benchmarks" = Some (JList (JDict b :: rest)) ->
  b !! "counters" = None ->
  as_string (default (JStr "") (b !! "name")) = Some name_ ->
  as_int (default (JInt 1) (b !! "threads")) = Some threads_ ->
  as_number (default (JInt 0) (b !! "iterations")) = Some iterations_ ->
  as_number (default (JInt 0) (b !! "real_time")) = Some real_time_ ->
  as_number (default (JInt 0) (b !! "cpu_time")) = Some cpu_time_ ->
  as_string (default (JStr "ms") (b !! "time_unit")) = Some time_unit_ ->
  exists result,
    parse_benchmark_result zero (JDict d) = inr (Some result) /\
    record_of result =
    Some (Result name_ threads_ iterations_ real_time_ cpu_time_ time_unit_
            None).
Proof.
  intros Hb Hc H1 H2 H3 H4 H5 H6.
  rewrite (ParseFacts.parse_list_dict _ _ _ _ Hb), Hc. cbv zeta.
  eexists. split; [reflexivity|].
  rewrite record_of_inserts, H1, H2, H3, H4, H5, H6. reflexivity.
Qed.

(** X27.  When, in addition, ['counters'] is a dict whose values under
    Recall, items_per_second, total_queries, Latency, end_to_end, itopk,
    search_width and refine_ratio, or their defaults, are numbers, the
    parser returns a dictionary that stands for the record with these
    counters: each counter is the number of the file, an integer or a
    float as it was loaded. *)
Theorem parse_typed_with_counters
    (d b c : gmap string (json float)) (rest : list (json float))
    (name_ time_unit_ : string) (threads_ : Z)
    (iterations_ real_time_ cpu_time_ : number float)
    (recall_ qps_ total_queries_ latency_ end_to_end_ itopk_ search_width_
       refine_ratio_ : number float) :
  d !! "benchmarks" = Some (JList (JDict b :: rest)) ->
  b !! "counters" = Some (JDict c) ->
  as_string (default (JStr "") (b !! "name")) = Some name_ ->
  as_int (default (JInt 1) (b !! "threads")) = Some threads_ ->
  as_number (default (JInt 0) (b !! "iterations")) = Some iterations_ ->
  as_number (default (JInt 0) (b !! "real_time")) = Some real_time_ ->
  as_number (default (JInt 0) (b !! "cpu_time")) = Some cpu_time_ ->
  as_string (default (JStr "ms") (b !! "time_unit")) = Some time_unit_ ->
  as_number (default (JFloat zero) (c !! "Recall")) = Some recall_ ->
  as_number (default (JFloat zero) (c !! "items_per_second")) = Some qps_ ->
  as_number (default (JInt 0) (c !! "total_queries")) = Some total_queries_ ->
  as_number (default (JFloat zero) (c !! "Latency")) = Some latency_ ->
  as_number (default (JFloat zero) (c !! "end_to_end")) = Some end_to_end_ ->
  as_number (default (JInt 0) (c !! "itopk")) = Some itopk_ ->
  as_number (default (JInt 0) (c !! "search_width")) = Some search_width_ ->
  as_number (default (JFloat zero) (c !! "refine_ratio")) = Some refine_ratio_ ->
  exists result,
    parse_benchmark_result zero (JDict d) = inr (Some result) /\
    record_of result =
    Some (Result name_ threads_ iterations_ real_time_ cpu_time_ time_unit_
            (Some (Counters recall_ qps_ total_queries_ latency_ end_to_end_
                     itopk_ search_width_ refine_ratio_))).
Proof.
  intros Hb Hc H1 H2 H3 H4 H5 H6 C1 C2 C3 C4 C5 C6 C7 C8.
  rewrite (ParseFacts.parse_list_dict _ _ _ _ Hb), Hc. cbv zeta.
  eexists. split; [reflexivity|].
  rewrite record_of_inserts_counters, H1, H2, H3, H4, H5, H6,
    C1, C2, C3, C4, C5, C6, C7, C8.
  reflexivity.
Qed.

End Records.


Lemma parse_typed_with_counters_witness :
  let c : gmap string (json Z) :=
    {[ "Recall" := JFloat 9; "total_queries" := JFloat 10000;
       "itopk" := JFloat 64 ]} in
  let b : gmap string (json Z) :=
    {[ "threads" := JInt 8; "counters" := JDict c ]} in
  let d : gmap string (json Z) := {[ "benchmarks" := JList [JDict b] ]} in
  exists result,
    parse_benchmark_result 0 (JDict d) = inr (Some result) /\
    record_of result =
    Some (Result "" 8 (Int 0) (Int 0) (Int 0) "ms"
            (Some (Counters (Float 9) (Float 0) (Float 10000) (Float 0)
                     (Float 0) (Float 64) (Int 0) (Float 0)))).
Proof.
  intros c b d.
  apply (parse_typed_with_counters 0 d b c []); reflexivity.
Defined.

Lemma parse_typed_without_counters_witness :
  let b : gmap string (json Z) :=
    {[ "threads" := JInt 8; "real_time" := JFloat 3 ]} in
  let d : gmap string (json Z) := {[ "benchmarks" := JList [JDict b] ]} in
  exists result,
    parse_benchmark_result 0 (JDict d) = inr (Some result) /\
    record_of result =
    Some (Result "" 8 (Int 0) (Float 3) (Int 0) "ms" None).
Proof.
  intros b d.
  apply (parse_typed_without_counters 0 d b []); reflexivity.
Defined.

End RecordFacts.
